(** * glance-custom: the Weibo hot-search widget and the random-fact widget

    A shallow embedding of the hot-search widget ([weiboWidget]) and of
    [internal/glance/widget-random-fact.go] ([randomFactWidget]), and the
    properties of the two widgets proved over it.

    Layout: [GoRuntime] holds the pieces of the Go runtime and standard
    library the widgets call (64-bit integers, durations, the clock,
    [strconv], [fmt]'s [%.1f], [url.QueryEscape], [net/http]); [Host] holds
    the dashboard's [widgetBase]; [Weibo] and [RandomFact] hold the two
    widgets, function by function; the theorems come last. *)

From Stdlib Require Import ZArith List String Ascii Bool Lia.
From Stdlib Require Import DecimalString.
From Stdlib Require Floats.SpecFloat.
Import ListNotations.

Local Open Scope string_scope.
Local Open Scope Z_scope.

(* ===================================================================== *)
(** * The Go runtime, as far as the widgets use it *)
(* ===================================================================== *)

Module GoRuntime.

(** Go's [error] values are used for their message only. *)
Definition error := string.

(** A Go [(value, error)] return pair: exactly one side is meaningful. *)
Inductive result (A : Type) : Type :=
| Ok (a : A)
| Err (e : error).
Arguments Ok {A} a.
Arguments Err {A} e.

(** ** int64 and [time.Duration] *)

Definition minInt64 : Z := - 2 ^ 63.
Definition maxInt64 : Z := 2 ^ 63 - 1.

(** Two's-complement wrap-around of a 64-bit signed integer. *)
Definition wrap64 (z : Z) : Z := (z + 2 ^ 63) mod 2 ^ 64 - 2 ^ 63.

(** [time.Duration] is an int64 count of nanoseconds. *)
Definition Duration := Z.
Definition Second : Duration := 1000000000.
Definition Minute : Duration := 60 * Second.
Definition Hour : Duration := 60 * Minute.

(** [time.Duration(n) * unit], with int64 overflow. *)
Definition durationMul (n : Z) (unit : Duration) : Duration := wrap64 (n * unit).

(** ** [time.Time]

    An instant is its distance in nanoseconds from Go's zero [time.Time]
    (January 1, year 1); the zero value of a [time.Time] field is [0]. *)
Definition Time := Z.
Definition zeroTime : Time := 0.

(** [t.Sub(u)]: the difference, saturated to the range of a Duration. *)
Definition timeSub (t u : Time) : Duration :=
  Z.max minInt64 (Z.min maxInt64 (t - u)).

(** ** [strconv.FormatInt(n, 10)] and [%d] *)

Definition formatInt (n : Z) : string := NilZero.string_of_int (Z.to_int n).

(** ** float64 and [fmt.Sprintf("%.1f", x)]

    A float64 is a [spec_float] at precision 53 and maximal exponent 1024;
    conversions and division round to nearest, ties to even. *)
Definition float64 := SpecFloat.spec_float.

Definition float64OfInt (n : Z) : float64 :=
  SpecFloat.binary_normalize 53 1024 n 0 false.

Definition float64Div (x y : float64) : float64 := SpecFloat.SFdiv 53 1024 x y.

(** The integer nearest to [num / den] ([den > 0], [num >= 0]), ties to the
    even one: what [strconv]'s decimal rounding does on the exact value. *)
Definition roundHalfEven (num den : Z) : Z :=
  let q := num / den in
  let r := num mod den in
  if 2 * r <? den then q
  else if den <? 2 * r then q + 1
  else if Z.even q then q else q + 1.

(** The number of tenths [%.1f] prints for the magnitude [m * 2^e]. *)
Definition tenths (m : positive) (e : Z) : Z :=
  if 0 <=? e then 10 * Z.pos m * 2 ^ e
  else roundHalfEven (10 * Z.pos m) (2 ^ (- e)).

Definition formatTenths (neg : bool) (t : Z) : string :=
  (if neg then "-" else "") ++ formatInt (t / 10) ++ "." ++ formatInt (t mod 10).

Definition formatFloat1 (x : float64) : string :=
  match x with
  | SpecFloat.S754_zero s => formatTenths s 0
  | SpecFloat.S754_infinity s => if s then "-Inf" else "+Inf"
  | SpecFloat.S754_nan => "NaN"
  | SpecFloat.S754_finite s m e => formatTenths s (tenths m e)
  end.

(** ** [url.QueryEscape] *)

Definition isUnreserved (c : ascii) : bool :=
  let n := Z.of_nat (nat_of_ascii c) in
  ((97 <=? n) && (n <=? 122))        (* a-z *)
  || ((65 <=? n) && (n <=? 90))      (* A-Z *)
  || ((48 <=? n) && (n <=? 57))      (* 0-9 *)
  || (n =? 45) || (n =? 95) || (n =? 46) || (n =? 126).   (* - _ . ~ *)

Definition upperhex (n : nat) : ascii :=
  match String.get n "0123456789ABCDEF" with
  | Some c => c
  | None => "0"%char
  end.

Fixpoint QueryEscape (s : string) : string :=
  match s with
  | EmptyString => EmptyString
  | String c rest =>
      if isUnreserved c then String c (QueryEscape rest)
      else if Ascii.eqb c " "%char then String "+"%char (QueryEscape rest)
      else String "%"%char
             (String (upperhex (nat_of_ascii c / 16))
                (String (upperhex (nat_of_ascii c mod 16)) (QueryEscape rest)))
  end.

(** ** [context.Context]

    A context is the instant at which it is cancelled, if ever;
    [context.Background()] never is. *)
Record context := { cancelAt : option Time }.

Definition Background : context := {| cancelAt := None |}.

(** ** [net/http] *)

(** The one request body the widgets send: the chat-completion payload
    handed to [json.Marshal]. *)
Record chatMessage := { role : string; content : string }.

Record chatPayload := {
  model : string;
  messages : list chatMessage;
  stream : bool;
  max_tokens : Z;
  response_format : string       (* the "type" of the response_format object *)
}.

Record httpRequest := {
  Method : string;
  URL : string;
  Header : list (string * string);
  reqBody : option chatPayload;
  reqCtx : context          (* the context the request was created with *)
}.

(** [http.NewRequestWithContext(ctx, method, url, body)], for a URL that
    parses. *)
Definition NewRequestWithContext (ctx : context) (method url : string)
    (body : option chatPayload) : httpRequest :=
  {| Method := method; URL := url; Header := []; reqBody := body; reqCtx := ctx |}.

(** [http.NewRequest] is [NewRequestWithContext] at [context.Background()]. *)
Definition NewRequest (method url : string) (body : option chatPayload) : httpRequest :=
  NewRequestWithContext Background method url body.

(** [req.Header.Set(key, value)]: the key's former values are replaced. *)
Definition headerSet (key value : string) (req : httpRequest) : httpRequest :=
  {| Method := Method req; URL := URL req;
     Header := filter (fun kv => negb (fst kv =? key)%string) (Header req) ++ [(key, value)];
     reqBody := reqBody req; reqCtx := reqCtx req |}.

(** A response body: its bytes, or the error reading it ends with. *)
Inductive httpBody :=
| BodyBytes (b : string)
| BodyReadError (e : error).

Record httpResponse := { StatusCode : Z; Body : httpBody }.

Definition StatusOK : Z := 200.

(** [http.Client]; a [Timeout] of zero means no timeout. *)
Record httpClient := { Timeout : Duration }.

(** ** The world outside the process

    The clock, the network (what a request is answered with and after how
    many nanoseconds), the requests handed to [client.Do] so far (oldest
    first) and what was printed on standard output. *)
Record world := {
  now : Time;
  transport : httpRequest -> result httpResponse * N;
  requests : list httpRequest;
  stdout : list string
}.

(** Code that acts on the world; [None] is a run-time panic. *)
Definition IO (A : Type) : Type := world -> option (A * world).

Definition ret {A} (a : A) : IO A := fun wd => Some (a, wd).

Definition bind {A B} (m : IO A) (k : A -> IO B) : IO B :=
  fun wd => match m wd with
            | Some (a, wd') => k a wd'
            | None => None
            end.

Notation "x <- m ;; k" := (bind m (fun x => k))
  (at level 61, m at next level, right associativity).
Notation "m ;;; k" := (bind m (fun _ => k))
  (at level 61, right associativity).

(** The world after [client.Do] returned at instant [t]. *)
Definition sent (req : httpRequest) (t : Time) (wd : world) : world :=
  {| now := t; transport := transport wd;
     requests := (requests wd ++ [req])%list; stdout := stdout wd |}.

(** The world after a line was printed. *)
Definition printed (line : string) (wd : world) : world :=
  {| now := now wd; transport := transport wd; requests := requests wd;
     stdout := (stdout wd ++ [line])%list |}.

(** [time.Now()] *)
Definition timeNow : IO Time := fun wd => Some (now wd, wd).

(** [time.Since(t)] is [time.Now().Sub(t)]. *)
Definition timeSince (t : Time) : IO Duration :=
  n <- timeNow ;; ret (timeSub n t).

(** [fmt.Printf] of an already formatted line. *)
Definition Printf (line : string) : IO unit :=
  fun wd => Some (tt, printed line wd).

Definition quote : string := String (ascii_of_nat 34) EmptyString.

(** The [*url.Error] text [client.Do] wraps a failure in. *)
Definition urlError (req : httpRequest) (msg : string) : error :=
  (if (Method req =? "POST")%string then "Post " else "Get ")
    ++ quote ++ URL req ++ quote ++ ": " ++ msg.

(** [client.Do(req)].  The request is answered by the network after some
    wait, unless the request's context is cancelled or the client's timeout
    expires first; the clock moves to the instant [Do] returns at.  A nil
    client is a nil-pointer dereference. *)
Definition clientDo (client : option httpClient) (req : httpRequest)
    : IO (result httpResponse) :=
  fun wd =>
    match client with
    | None => None
    | Some c =>
        let start := now wd in
        let '(answer, wait) := transport wd req in
        let arrival := start + Z.of_N wait in
        let finish (t : Time) (r : result httpResponse) :=
          Some (r, sent req t wd) in
        let cancelT :=
          match cancelAt (reqCtx req) with
          | Some tc => Z.max start tc
          | None => start
          end in
        let cancelled :=
          match cancelAt (reqCtx req) with
          | Some tc => (tc <=? start) || (tc <? arrival)
          | None => false
          end in
        let timeoutT := start + Timeout c in
        let timedOut := (0 <? Timeout c) && (timeoutT <? arrival) in
        if cancelled && negb (timedOut && (timeoutT <? cancelT)) then
          finish cancelT (Err (urlError req "context canceled"))
        else if timedOut then
          finish timeoutT
            (Err (urlError req
               "context deadline exceeded (Client.Timeout exceeded while awaiting headers)"))
        else
          match answer with
          | Ok resp => finish arrival (Ok resp)
          | Err e => finish arrival (Err (urlError req e))
          end
    end.

(** The world a while later: the clock has moved on by [d] and the network
    answers by [answer] from now on. *)
Definition elapse (d : Duration) (answer : httpRequest -> result httpResponse * N)
    (wd : world) : world :=
  {| now := now wd + d; transport := answer; requests := requests wd;
     stdout := stdout wd |}.

(** A world at instant [t] in which nothing was sent or printed yet and
    the network answers by [answer]. *)
Definition worldAt (t : Time) (answer : httpRequest -> result httpResponse * N)
    : world :=
  {| now := t; transport := answer; requests := []; stdout := [] |}.

(** A network that answers every request alike. *)
Definition answering (status : Z) (body : string) (wait : N)
    : httpRequest -> result httpResponse * N :=
  fun _ => (Ok {| StatusCode := status; Body := BodyBytes body |}, wait).

(** Every character of [s] passes the test [p]. *)
Fixpoint allChars (p : ascii -> bool) (s : string) : bool :=
  match s with
  | EmptyString => true
  | String c rest => p c && allChars p rest
  end.

(** The characters [url.QueryEscape] lets through or produces. *)
Definition isQuerySafe (c : ascii) : bool :=
  isUnreserved c || Ascii.eqb c "+"%char || Ascii.eqb c "%"%char.

End GoRuntime.

(* ===================================================================== *)
(** * The dashboard host's [widgetBase] *)
(* ===================================================================== *)

Module Host.
Import GoRuntime.

(** What a widget asks of the host's scheduler. *)
Inductive scheduleRequest := EarlyUpdate | NextUpdate.

(** Modelled from the spec: [widgetBase] is declared by the host, outside
    these two files.  It has the fields the widgets read and write
    ([CustomCacheDuration], [ContentAvailable]) and the ones the hooks
    below fill: title, cache lifetime, the error kept "for later display"
    and the retry and refresh requests made to the scheduler, oldest
    first. *)
Record widgetBase := {
  Title : string;
  CustomCacheDuration : Duration;        (* durationField *)
  ContentAvailable : bool;
  Error : option error;
  cacheDuration : Duration;
  scheduled : list scheduleRequest
}.

(** Modelled from the spec: [withTitle], a configuration setter. *)
Definition withTitle (title : string) (w : widgetBase) : widgetBase :=
  {| Title := title; CustomCacheDuration := CustomCacheDuration w;
     ContentAvailable := ContentAvailable w; Error := Error w;
     cacheDuration := cacheDuration w; scheduled := scheduled w |}.

(** Modelled from the spec: [withCacheDuration], a configuration setter. *)
Definition withCacheDuration (d : Duration) (w : widgetBase) : widgetBase :=
  {| Title := Title w; CustomCacheDuration := CustomCacheDuration w;
     ContentAvailable := ContentAvailable w; Error := Error w;
     cacheDuration := d; scheduled := scheduled w |}.

(** Modelled from the spec: [withError], the error-reporting hook; it
    "stores the error for later display". *)
Definition withError (err : error) (w : widgetBase) : widgetBase :=
  {| Title := Title w; CustomCacheDuration := CustomCacheDuration w;
     ContentAvailable := ContentAvailable w; Error := Some err;
     cacheDuration := cacheDuration w; scheduled := scheduled w |}.

Definition schedule (r : scheduleRequest) (w : widgetBase) : widgetBase :=
  {| Title := Title w; CustomCacheDuration := CustomCacheDuration w;
     ContentAvailable := ContentAvailable w; Error := Error w;
     cacheDuration := cacheDuration w;
     scheduled := (scheduled w ++ [r])%list |}.

(** Modelled from the spec: [scheduleEarlyUpdate] "requests that the host
    reschedule an earlier-than-normal retry"; the backoff is the host's. *)
Definition scheduleEarlyUpdate : widgetBase -> widgetBase := schedule EarlyUpdate.

(** Modelled from the spec: [scheduleNextUpdate] "signals the host to
    schedule the next regular update". *)
Definition scheduleNextUpdate : widgetBase -> widgetBase := schedule NextUpdate.

Definition setContentAvailable (b : bool) (w : widgetBase) : widgetBase :=
  {| Title := Title w; CustomCacheDuration := CustomCacheDuration w;
     ContentAvailable := b; Error := Error w;
     cacheDuration := cacheDuration w; scheduled := scheduled w |}.

Definition setCustomCacheDuration (d : Duration) (w : widgetBase) : widgetBase :=
  {| Title := Title w; CustomCacheDuration := d;
     ContentAvailable := ContentAvailable w; Error := Error w;
     cacheDuration := cacheDuration w; scheduled := scheduled w |}.

(** A parsed template is known by the files it was parsed from. *)
Definition template := list string.

(** Modelled from the spec: [mustParseTemplate], the host's template
    loader. *)
Definition mustParseTemplate (files : list string) : template := files.

Definition HTML := string.

(** Modelled from the spec: [renderTemplate] is "a template-rendering call
    that receives the widget's current state and produces an HTML
    fragment"; [execute] is the host's template engine. *)
Definition renderTemplate {D : Type} (execute : template -> option D -> HTML)
    (data : option D) (t : template) (w : widgetBase) : HTML :=
  execute t data.

End Host.

(* ===================================================================== *)
(** * The hot-search widget ([weiboWidget]) *)
(* ===================================================================== *)

Module Weibo.
Import GoRuntime Host.

Definition weiboWidgetTemplate : template :=
  mustParseTemplate ["weibo.html"; "widget-base.html"].

(** [weiboHotSearchItem]; [Monitors], a free-form JSON object the widget
    never looks into, is kept as its keys and raw values. *)
Record weiboHotSearchItem := {
  Icon : string;
  IconWidth : Z;
  IconHeight : Z;
  Emoticon : string;
  Num : Z;                       (* int64 *)
  Note : string;
  RealPos : Z;
  LabelName : string;
  SmallIconDesc : string;
  SmallIconDescColor : string;
  Flag : Z;
  IconDesc : string;
  IconDescColor : string;
  WordScheme : string;
  TopicFlag : Z;
  Word : string;
  Rank : Z;
  FlagDesc : string;
  Monitors : list (string * string);
  DotIcon : Z;
  IsAd : Z;
  IconType : string;
  ID : Z
}.

(** The anonymous [struct { weiboHotSearchItem; URL string }]. *)
Record hotSearchWithURL := {
  item : weiboHotSearchItem;
  itemURL : string
}.

(** [weiboAPIResponse.Data.Hotgov] *)
Record weiboHotgov := {
  hgSmallIconDesc : string;
  hgSmallIconDescColor : string;
  hgIconHeight : Z;
  hgIsHot : Z;
  hgPos : Z;
  hgTopicFlag : Z;
  hgWord : string;
  hgIsGov : Z;
  hgNote : string;
  hgName : string;
  hgURL : string;
  hgFlag : Z;
  hgIconWidth : Z;
  hgStime : Z;
  hgIconDesc : string;
  hgIcon : string;
  hgIconDescColor : string;
  hgMid : string
}.

(** [weiboAPIResponse.Data.Logs] *)
Record weiboLogs := { ActCode : Z; Ext : string }.

(** [weiboAPIResponse.Data] *)
Record weiboData := {
  Realtime : list weiboHotSearchItem;
  Hotgovs : list weiboHotSearchItem;
  Hotgov : weiboHotgov;
  Logs : weiboLogs
}.

Record weiboAPIResponse := { OK : Z; Data : weiboData }.

Record weiboWidget := {
  base : widgetBase;
  ShowCount : Z;
  Limit : Z;
  Category : string;
  RefreshInterval : Z;
  HotSearches : list hotSearchWithURL;
  LastUpdated : Time
}.

Definition setBase (b : widgetBase) (w : weiboWidget) : weiboWidget :=
  {| base := b; ShowCount := ShowCount w; Limit := Limit w; Category := Category w;
     RefreshInterval := RefreshInterval w; HotSearches := HotSearches w;
     LastUpdated := LastUpdated w |}.

Definition setShowCount (n : Z) (w : weiboWidget) : weiboWidget :=
  {| base := base w; ShowCount := n; Limit := Limit w; Category := Category w;
     RefreshInterval := RefreshInterval w; HotSearches := HotSearches w;
     LastUpdated := LastUpdated w |}.

Definition setRefreshInterval (n : Z) (w : weiboWidget) : weiboWidget :=
  {| base := base w; ShowCount := ShowCount w; Limit := Limit w; Category := Category w;
     RefreshInterval := n; HotSearches := HotSearches w;
     LastUpdated := LastUpdated w |}.

Definition setHotSearches (l : list hotSearchWithURL) (w : weiboWidget) : weiboWidget :=
  {| base := base w; ShowCount := ShowCount w; Limit := Limit w; Category := Category w;
     RefreshInterval := RefreshInterval w; HotSearches := l;
     LastUpdated := LastUpdated w |}.

Definition setLastUpdated (t : Time) (w : weiboWidget) : weiboWidget :=
  {| base := base w; ShowCount := ShowCount w; Limit := Limit w; Category := Category w;
     RefreshInterval := RefreshInterval w; HotSearches := HotSearches w;
     LastUpdated := t |}.

(** [initialize]; the returned error is [None] for Go's [nil]. *)
Definition initialize (widget : weiboWidget) : weiboWidget * option error :=
  let widget :=
    setBase (withCacheDuration (30 * Minute) (withTitle "Weibo HotSearch" (base widget)))
            widget in
  let widget :=
    if 0 <? Limit widget then setShowCount (Limit widget) widget else widget in
  let widget :=
    if ShowCount widget <=? 0 then setShowCount 10 widget else widget in
  let widget :=
    if 50 <? ShowCount widget then setShowCount 50 widget else widget in
  let widget :=
    if RefreshInterval widget <=? 0 then setRefreshInterval 30 widget else widget in
  let widget :=
    setBase (withCacheDuration (durationMul (RefreshInterval widget) Minute) (base widget))
            widget in
  let widget := setBase (setContentAvailable true (base widget)) widget in
  (widget, None).

Definition len {A} (l : list A) : Z := Z.of_nat (List.length l).

(** One turn of the filtering loop of [fetchWeiboHotSearch]. *)
Definition filterStep (category : string)
    (filteredHotSearches : list weiboHotSearchItem) (it : weiboHotSearchItem)
    : list weiboHotSearchItem :=
  if negb (Word it =? "")%string then
    if negb (category =? "")%string && negb (LabelName it =? category)%string
    then filteredHotSearches                              (* continue *)
    else (filteredHotSearches ++ [it])%list
  else filteredHotSearches.

(** One turn of the loop that pairs every item with its search URL. *)
Definition urlStep (hotSearchesWithUrl : list hotSearchWithURL)
    (it : weiboHotSearchItem) : list hotSearchWithURL :=
  let searchURL := "https://s.weibo.com/weibo?q=" ++ QueryEscape (WordScheme it) in
  (hotSearchesWithUrl ++ [{| item := it; itemURL := searchURL |}])%list.

(** The request [fetchWeiboHotSearch] builds; the URL is a constant that
    parses, so [NewRequestWithContext] cannot fail. *)
Definition hotSearchRequest (ctx : context) : httpRequest :=
  let apiURL := "https://weibo.com/ajax/side/hotSearch" in
  let req := NewRequestWithContext ctx "GET" apiURL None in
  let req := headerSet "User-Agent"
    "Mozilla/5.0 (Windows NT 10.0; Win64; x64) AppleWebKit/537.36 (KHTML, like Gecko) Chrome/91.0.4472.124 Safari/537.36"
    req in
  let req := headerSet "Accept" "application/json, text/plain, */*" req in
  let req := headerSet "Accept-Language" "zh-CN,zh;q=0.9,en;q=0.8" req in
  headerSet "Referer" "https://weibo.com" req.

Section Widget.

(** [json.Unmarshal] into a [weiboAPIResponse]. *)
Variable unmarshal : string -> result weiboAPIResponse.

(** The host's template engine on this widget. *)
Variable execute : template -> option weiboWidget -> HTML.

Definition fetchWeiboHotSearch (ctx : context) (widget : weiboWidget)
    : IO (result (list hotSearchWithURL)) :=
  let req := hotSearchRequest ctx in
  let client := {| Timeout := 0 |} in
  r <- clientDo (Some client) req ;;
  match r with
  | Err err => ret (Err ("请求失败: " ++ err))
  | Ok resp =>
      if negb (StatusCode resp =? StatusOK) then
        ret (Err ("API请求失败，状态码: " ++ formatInt (StatusCode resp)))
      else
        match Body resp with
        | BodyReadError err => ret (Err ("读取响应内容失败: " ++ err))
        | BodyBytes body =>
            match unmarshal body with
            | Err err => ret (Err ("解析JSON响应失败: " ++ err))
            | Ok apiResponse =>
                if negb (OK apiResponse =? 1) then
                  ret (Err ("API返回错误状态: ok=" ++ formatInt (OK apiResponse)))
                else
                  let allItems : list weiboHotSearchItem := [] in
                  let allItems := (allItems ++ Realtime (Data apiResponse))%list in
                  let allItems := (allItems ++ Hotgovs (Data apiResponse))%list in
                  let filteredHotSearches :=
                    fold_left (filterStep (Category widget)) allItems [] in
                  let filteredHotSearches :=
                    if (0 <? ShowCount widget)
                       && (ShowCount widget <? len filteredHotSearches)
                    then firstn (Z.to_nat (ShowCount widget)) filteredHotSearches
                    else filteredHotSearches in
                  let hotSearchesWithUrl := fold_left urlStep filteredHotSearches [] in
                  ret (Ok hotSearchesWithUrl)
            end
        end
  end.

Definition update (ctx : context) (widget : weiboWidget) : IO weiboWidget :=
  r <- fetchWeiboHotSearch ctx widget ;;
  match r with
  | Err err =>
      ret (setBase (scheduleEarlyUpdate (withError err (base widget))) widget)
  | Ok hotSearches =>
      let widget := setHotSearches hotSearches widget in
      t <- timeNow ;;
      ret (setLastUpdated t widget)
  end.

Definition Render (widget : weiboWidget) : weiboWidget * HTML :=
  (widget, renderTemplate execute (Some widget) weiboWidgetTemplate (base widget)).

(** The states a widget configured as [w0] goes through: the host calls
    [initialize] once, then [update] and [Render] in any order, each in
    whatever world there is at that moment. *)
Inductive operated (w0 : weiboWidget) : weiboWidget -> Prop :=
| operated_initialize : operated w0 (fst (initialize w0))
| operated_update (ctx : context) (wd wd' : world) (w w' : weiboWidget) :
    operated w0 w -> update ctx w wd = Some (w', wd') -> operated w0 w'
| operated_Render (w : weiboWidget) :
    operated w0 w -> operated w0 (fst (Render w)).

End Widget.

(** [FormattedHotValue] *)
Definition FormattedHotValue (it : weiboHotSearchItem) : string :=
  if 1000000 <=? Num it then
    formatFloat1 (float64Div (float64OfInt (Num it)) (float64OfInt 1000000)) ++ "M"
  else if 1000 <=? Num it then
    formatFloat1 (float64Div (float64OfInt (Num it)) (float64OfInt 1000)) ++ "K"
  else formatInt (Num it).

(** The map literal of [CategoryDisplayName]; its keys are distinct. *)
Definition categoryMap : list (string * string) :=
  [ ("娱乐", "娱"); ("社会", "社"); ("科技", "科"); ("体育", "体"); ("财经", "财");
    ("热点", "热"); ("军事", "军"); ("国际", "国"); ("历史", "史"); ("美食", "食") ].

(** [m[key]] with the comma-ok form on a map from string to string. *)
Fixpoint mapIndex (m : list (string * string)) (key : string) : option string :=
  match m with
  | [] => None
  | (k, v) :: rest => if (k =? key)%string then Some v else mapIndex rest key
  end.

(** [CategoryDisplayName] *)
Definition CategoryDisplayName (it : weiboHotSearchItem) : string :=
  match mapIndex categoryMap (LabelName it) with
  | Some name => name
  | None => LabelName it
  end.

(** ** The fetch contract in the specification's words *)

(** Step 7: an entry survives when its display word is not empty and,
    with a category filter configured, its label is the category. *)
Definition survives (category : string) (it : weiboHotSearchItem) : bool :=
  negb (Word it =? "")%string
  && ((category =? "")%string || (LabelName it =? category)%string).

(** Steps 6 to 8: realtime entries, then government entries, the
    survivors of those, at most [count] of them when [count] is positive. *)
Definition selectEntries (category : string) (count : Z)
    (realtime hotgovs : list weiboHotSearchItem) : list weiboHotSearchItem :=
  let kept := filter (survives category) (realtime ++ hotgovs)%list in
  if count <=? 0 then kept else firstn (Z.to_nat count) kept.

(** Step 9: an entry with its search URL. *)
Definition withSearchURL (it : weiboHotSearchItem) : hotSearchWithURL :=
  {| item := it;
     itemURL := "https://s.weibo.com/weibo?q=" ++ QueryEscape (WordScheme it) |}.

(** The request outlives its context's cancellation: the context is not
    cancelled before the answer, due after [wait] nanoseconds, is there. *)
Definition uncancelled (ctx : context) (wd : world) (wait : N) : Prop :=
  match cancelAt ctx with
  | None => True
  | Some tc => now wd < tc /\ now wd + Z.of_N wait <= tc
  end.

(** The display count [initialize] starts from: a positive "limit"
    replaces "show-count". *)
Definition chosenCount (w : weiboWidget) : Z :=
  if 0 <? Limit w then Limit w else ShowCount w.

(** The zero value of [weiboHotSearchItem] but for the four fields the
    widget reads. *)
Definition entry (word label scheme : string) (num : Z) : weiboHotSearchItem :=
  {| Icon := ""; IconWidth := 0; IconHeight := 0; Emoticon := ""; Num := num;
     Note := ""; RealPos := 0; LabelName := label; SmallIconDesc := "";
     SmallIconDescColor := ""; Flag := 0; IconDesc := ""; IconDescColor := "";
     WordScheme := scheme; TopicFlag := 0; Word := word; Rank := 0; FlagDesc := "";
     Monitors := []; DotIcon := 0; IsAd := 0; IconType := ""; ID := 0 |}.

Definition zeroHotgov : weiboHotgov :=
  {| hgSmallIconDesc := ""; hgSmallIconDescColor := ""; hgIconHeight := 0;
     hgIsHot := 0; hgPos := 0; hgTopicFlag := 0; hgWord := ""; hgIsGov := 0;
     hgNote := ""; hgName := ""; hgURL := ""; hgFlag := 0; hgIconWidth := 0;
     hgStime := 0; hgIconDesc := ""; hgIcon := ""; hgIconDescColor := "";
     hgMid := "" |}.

(** A payload with status flag 1 and the given entries. *)
Definition payloadOf (realtime hotgovs : list weiboHotSearchItem) : weiboAPIResponse :=
  {| OK := 1;
     Data := {| Realtime := realtime; Hotgovs := hotgovs; Hotgov := zeroHotgov;
                Logs := {| ActCode := 0; Ext := "" |} |} |}.

(** A widget as the configuration loader leaves it. *)
Definition configured (showCount limit : Z) (category : string) (refresh : Z)
    : weiboWidget :=
  {| base := {| Title := ""; CustomCacheDuration := 0; ContentAvailable := false;
                Error := None; cacheDuration := 0; scheduled := [] |};
     ShowCount := showCount; Limit := limit; Category := category;
     RefreshInterval := refresh; HotSearches := []; LastUpdated := zeroTime |}.

End Weibo.

(* ===================================================================== *)
(** * The random-fact widget ([randomFactWidget]) *)
(* ===================================================================== *)

Module RandomFact.
Import GoRuntime Host.

Definition defaultFactCacheDuration : Duration := 2 * Hour.
Definition factAPIURL : string := "https://uselessfacts.jsph.pl/api/v2/facts/random".
Definition aiAPIURL : string := "https://api.siliconflow.cn/v1/chat/completions".

Definition randomFactWidgetTemplate : template :=
  mustParseTemplate ["random-fact.html"; "widget-base.html"].

Definition nl : string := String (ascii_of_nat 10) EmptyString.

Record randomFactData := {
  FactID : string;
  FactText : string;
  Content : string;
  Source : string
}.

Record rawFactResponse := {
  rfID : string;
  rfText : string;
  rfSource : string;
  rfSourceURL : string;
  rfLanguage : string;
  rfPermalink : string
}.

(** [aiResponse.Choices[i]]: only [Message.Content] is there. *)
Record aiChoice := { MessageContent : string }.

(** [aiResponse.Error] *)
Record aiError := { errMessage : string; errType : string; errCode : string }.

Record aiResponse := {
  Choices : list aiChoice;
  aiErr : option aiError          (* the [Error] pointer *)
}.

Record randomFactWidget := {
  base : widgetBase;
  APIKey : string;
  Model : string;
  APIURL : string;
  client : option httpClient;           (* nil until [initialize] *)
  CachedData : option randomFactData;   (* nil until the first update *)
  lastUpdate : Time
}.

Definition setBase (b : widgetBase) (w : randomFactWidget) : randomFactWidget :=
  {| base := b; APIKey := APIKey w; Model := Model w; APIURL := APIURL w;
     client := client w; CachedData := CachedData w; lastUpdate := lastUpdate w |}.

Definition setClient (c : option httpClient) (w : randomFactWidget) : randomFactWidget :=
  {| base := base w; APIKey := APIKey w; Model := Model w; APIURL := APIURL w;
     client := c; CachedData := CachedData w; lastUpdate := lastUpdate w |}.

Definition setCachedData (d : option randomFactData) (w : randomFactWidget)
    : randomFactWidget :=
  {| base := base w; APIKey := APIKey w; Model := Model w; APIURL := APIURL w;
     client := client w; CachedData := d; lastUpdate := lastUpdate w |}.

Definition setLastUpdate (t : Time) (w : randomFactWidget) : randomFactWidget :=
  {| base := base w; APIKey := APIKey w; Model := Model w; APIURL := APIURL w;
     client := client w; CachedData := CachedData w; lastUpdate := t |}.

(** [hasAIConfig], computed alike in [initialize] and in [update]. *)
Definition hasAIConfig (widget : randomFactWidget) : bool :=
  negb (APIKey widget =? "")%string && negb (Model widget =? "")%string
  && negb (APIURL widget =? "")%string.

Definition initialize (widget : randomFactWidget)
    : IO (randomFactWidget * option error) :=
  let widget :=
    setBase (withCacheDuration (CustomCacheDuration (base widget))
               (withTitle "Random Fact" (base widget))) widget in
  let widget :=
    if CustomCacheDuration (base widget) =? 0 then
      let widget :=
        setBase (setCustomCacheDuration defaultFactCacheDuration (base widget)) widget in
      setBase (withCacheDuration defaultFactCacheDuration (base widget)) widget
    else widget in
  (if negb (hasAIConfig widget)
   then Printf ("AI API not configured, will use raw facts only" ++ nl)
   else ret tt) ;;;
  let widget := setClient (Some {| Timeout := 30 * Second |}) widget in
  ret (widget, None).

(** The scan of [extractModelName] for the last ['/']: [k] is [i + 1] for
    the index [i] the loop is about to look at. *)
Fixpoint lastSlashScan (model : string) (k : nat) : string :=
  match k with
  | O => model
  | S i =>
      match String.get i model with
      | Some c =>
          if Ascii.eqb c "/"%char
          then String.substring (i + 1) (String.length model - (i + 1)) model
          else lastSlashScan model i
      | None => lastSlashScan model i
      end
  end.

Definition extractModelName (widget : randomFactWidget) : string :=
  if Nat.eqb (String.length (Model widget)) 0 then "unknown"
  else lastSlashScan (Model widget) (String.length (Model widget)).

(** The request of [fetchRawFact]: [http.NewRequest], on a constant URL
    that parses. *)
Definition rawFactRequest : httpRequest := NewRequest "GET" factAPIURL None.

Section Widget.

(** [json.NewDecoder(body).Decode] into a [rawFactResponse] and into an
    [aiResponse]. *)
Variable decodeFact : string -> result rawFactResponse.
Variable decodeAI : string -> result aiResponse.

(** The error [http.NewRequest] has for a URL that does not parse. *)
Variable urlParseError : string -> option error.

(** The fixed system instruction [processWithAI] sends. *)
Variable systemPrompt : string.

(** The host's template engine on this widget. *)
Variable execute : template -> option randomFactWidget -> HTML.

Definition fetchRawFact (widget : randomFactWidget) : IO (result rawFactResponse) :=
  let req := rawFactRequest in
  r <- clientDo (client widget) req ;;
  match r with
  | Err err => ret (Err err)
  | Ok resp =>
      if negb (StatusCode resp =? StatusOK) then
        ret (Err ("API returned status code " ++ formatInt (StatusCode resp)))
      else
        match Body resp with
        | BodyReadError err => ret (Err err)
        | BodyBytes body =>
            match decodeFact body with
            | Err err => ret (Err err)
            | Ok fact => ret (Ok fact)
            end
        end
  end.

(** The request of [processWithAI], once the URL has parsed. *)
Definition aiRequest (widget : randomFactWidget) (text : string) : httpRequest :=
  let payload :=
    {| model := Model widget;
       messages := [ {| role := "system"; content := systemPrompt |};
                     {| role := "user"; content := text |} ];
       stream := false;
       max_tokens := 512;
       response_format := "text" |} in
  let req := NewRequest "POST" (APIURL widget) (Some payload) in
  let req := headerSet "Authorization" ("Bearer " ++ APIKey widget) req in
  headerSet "Content-Type" "application/json" req.

Definition processWithAI (widget : randomFactWidget) (text : string)
    : IO (result string) :=
  if (APIKey widget =? "")%string then ret (Err "API key not configured")
  else
    match urlParseError (APIURL widget) with
    | Some err => ret (Err err)
    | None =>
        r <- clientDo (client widget) (aiRequest widget text) ;;
        match r with
        | Err err => ret (Err err)
        | Ok resp =>
            if negb (StatusCode resp =? StatusOK) then
              ret (Err ("AI API returned status code " ++ formatInt (StatusCode resp)))
            else
              match Body resp with
              | BodyReadError err => ret (Err err)
              | BodyBytes body =>
                  match decodeAI body with
                  | Err err => ret (Err err)
                  | Ok aiResp =>
                      match aiErr aiResp with
                      | Some e => ret (Err ("AI API error: " ++ errMessage e))
                      | None =>
                          match Choices aiResp with
                          | [] => ret (Err "no choices in AI response")
                          | choice :: _ => ret (Ok (MessageContent choice))
                          end
                      end
                  end
              end
        end
    end.

(** [update]; the context it is given is not used. *)
Definition update (ctx : context) (widget : randomFactWidget) : IO randomFactWidget :=
  let cacheDuration := CustomCacheDuration (base widget) in
  valid <- match CachedData widget with
           | Some _ => age <- timeSince (lastUpdate widget) ;; ret (age <? cacheDuration)
           | None => ret false
           end ;;
  if valid then ret widget
  else
    r <- fetchRawFact widget ;;
    match r with
    | Err err =>
        Printf ("Error fetching raw fact: " ++ err ++ nl) ;;;
        ret (setBase (scheduleEarlyUpdate (withError err (base widget))) widget)
    | Ok rawFact =>
        ps <- (if hasAIConfig widget then
                 p <- processWithAI widget (rfText rawFact) ;;
                 let processedContent :=
                   match p with
                   | Ok processedContent => processedContent
                   | Err _ => rfText rawFact
                   end in
                 ret (processedContent, extractModelName widget)
               else ret (rfText rawFact, "uselessfacts.jsph.pl")) ;;
        let '(processedContent, source) := ps in
        let widget :=
          setCachedData (Some {| FactID := rfID rawFact; FactText := rfText rawFact;
                                 Content := processedContent; Source := source |})
                        widget in
        t <- timeNow ;;
        let widget := setLastUpdate t widget in
        ret (setBase (scheduleNextUpdate (base widget)) widget)
    end.

Definition Render (widget : randomFactWidget) : IO (randomFactWidget * HTML) :=
  match CachedData widget with
  | None =>
      Printf ("No cached data available" ++ nl) ;;;
      let widget := setBase (setContentAvailable false (base widget)) widget in
      let widget := setBase (withError "no data available" (base widget)) widget in
      ret (widget,
           renderTemplate execute None (mustParseTemplate ["widget-base.html"])
             (base widget))
  | Some _ =>
      let widget := setBase (setContentAvailable true (base widget)) widget in
      ret (widget,
           renderTemplate execute (Some widget) randomFactWidgetTemplate (base widget))
  end.

(** What a widget in state [w0], in the world [wd0], can come to: the
    host calls [update] and [Render] in any order, and between two calls
    time passes (the clock never runs backwards) while the network, the
    log of requests and the output may become anything. *)
Inductive serves (w0 : randomFactWidget) (wd0 : world)
    : randomFactWidget -> world -> Prop :=
| serves_start : serves w0 wd0 w0 wd0
| serves_update (ctx : context) (w w' : randomFactWidget) (wd wd' : world) :
    serves w0 wd0 w wd -> update ctx w wd = Some (w', wd') -> serves w0 wd0 w' wd'
| serves_Render (w w' : randomFactWidget) (html : HTML) (wd wd' : world) :
    serves w0 wd0 w wd -> Render w wd = Some ((w', html), wd') -> serves w0 wd0 w' wd'
| serves_wait (w : randomFactWidget) (wd wd' : world) :
    serves w0 wd0 w wd -> now wd <= now wd' -> serves w0 wd0 w wd'.

End Widget.

(** ** The widget's contract in the specification's words *)

(** "A cached record exists and is younger than the cache duration." *)
Definition cacheFresh (w : randomFactWidget) (wd : world) : bool :=
  match CachedData w with
  | Some _ => timeSub (now wd) (lastUpdate w) <? CustomCacheDuration (base w)
  | None => false
  end.

(** An upstream fetch: a GET of the trivia endpoint. *)
Definition isFactFetch (req : httpRequest) : bool :=
  (Method req =? "GET")%string && (URL req =? factAPIURL)%string.

(** How many upstream fetches the world has seen. *)
Definition factFetches (wd : world) : nat :=
  List.length (filter isFactFetch (requests wd)).

Fixpoint hasSlash (s : string) : bool :=
  match s with
  | EmptyString => false
  | String c rest => Ascii.eqb c "/"%char || hasSlash rest
  end.

(** The record [update] caches when the rewrite failed or is not asked
    for: the raw text, under the given source label. *)
Definition rawRecord (rawFact : rawFactResponse) (source : string) : randomFactData :=
  {| FactID := rfID rawFact; FactText := rfText rawFact;
     Content := rfText rawFact; Source := source |}.

(** A widget as the configuration loader leaves it. *)
Definition configured (apikey mdl apiurl : string) (cache : Duration)
    : randomFactWidget :=
  {| base := {| Title := ""; CustomCacheDuration := cache; ContentAvailable := false;
                Error := None; cacheDuration := 0; scheduled := [] |};
     APIKey := apikey; Model := mdl; APIURL := apiurl;
     client := None; CachedData := None; lastUpdate := zeroTime |}.

(** A fact as the trivia endpoint serves it. *)
Definition penguins : rawFactResponse :=
  {| rfID := "f1"; rfText := "Penguins actually have knees."; rfSource := "";
     rfSourceURL := ""; rfLanguage := "en"; rfPermalink := "" |}.

(** A network on which the trivia endpoint answers [factStatus] and the
    rewrite endpoint [aiStatus], each after [wait] nanoseconds. *)
Definition network (factStatus aiStatus : Z) (wait : N)
    : httpRequest -> result httpResponse * N :=
  fun req =>
    if (Method req =? "POST")%string then answering aiStatus "{}" wait req
    else answering factStatus "{}" wait req.

(** A widget as [initialize] leaves it, for a non-zero cache duration. *)
Definition ready (apikey mdl apiurl : string) (cache : Duration) : randomFactWidget :=
  {| base := {| Title := "Random Fact"; CustomCacheDuration := cache;
                ContentAvailable := false; Error := None; cacheDuration := cache;
                scheduled := [] |};
     APIKey := apikey; Model := mdl; APIURL := apiurl;
     client := Some {| Timeout := 30 * Second |};
     CachedData := None; lastUpdate := zeroTime |}.

(** Surroundings to run the widget in: every body decodes to the fact
    [penguins], no body decodes to a completion, every URL parses, the
    system instruction is empty, and a template renders as its name. *)
Definition decodePenguins : string -> result rawFactResponse := fun _ => Ok penguins.
Definition decodeNothing : string -> result aiResponse :=
  fun _ => Err "unexpected end of JSON input".
Definition everyURLParses : string -> option error := fun _ => None.

(** A rewrite endpoint's answer with one choice, and its decoder. *)
Definition oneChoice (text : string) : aiResponse :=
  {| Choices := [ {| MessageContent := text |} ]; aiErr := None |}.
Definition decodeChoice (text : string) : string -> result aiResponse :=
  fun _ => Ok (oneChoice text).
Definition templateName : template -> option randomFactWidget -> HTML :=
  fun t _ => String.concat "+" t.

End RandomFact.

(* ===================================================================== *)
(** * Properties of the runtime model *)
(* ===================================================================== *)

Section RuntimeProperties.
Import GoRuntime.

Example formatInt_negative : formatInt (-42) = "-42".
Proof. reflexivity. Qed.

(** [%.1f] rounds the binary value, not the decimal one: 1.25 is a tie
    and goes to the even digit, 1.05 lies above the tie as a float64. *)
Example formatFloat1_rounding :
  formatFloat1 (float64Div (float64OfInt 125) (float64OfInt 100)) = "1.2"
  /\ formatFloat1 (float64Div (float64OfInt 105) (float64OfInt 100)) = "1.1"
  /\ formatFloat1 (float64Div (float64OfInt 999950) (float64OfInt 1000)) = "1000.0".
Proof. vm_compute. repeat split. Qed.

Example QueryEscape_hashtag : QueryEscape "#a b/c~#" = "%23a+b%2Fc~%23".
Proof. reflexivity. Qed.

(** [client.Do] on a client that is there returns, no earlier than it was
    called, having logged the request. *)
Lemma clientDo_sent (c : httpClient) (req : httpRequest) (wd : world) :
  exists r t, clientDo (Some c) req wd = Some (r, sent req t wd) /\ now wd <= t.
Proof.
  unfold clientDo, sent. destruct (transport wd req) as [answer wait].
  destruct (cancelAt (reqCtx req)) as [tc|];
    repeat match goal with
           | |- context [if ?b then _ else _] => destruct b eqn:?
           | |- context [match answer with _ => _ end] => destruct answer
           end;
    do 2 eexists; (split; [reflexivity|]); try lia.
  all: repeat match goal with
         | H : andb _ _ = true |- _ => apply andb_prop in H; destruct H
         | H : (_ <? _) = true |- _ => apply Z.ltb_lt in H
         end; try lia.
Qed.

End RuntimeProperties.

(* ===================================================================== *)
(** * Properties of the hot-search widget *)
(* ===================================================================== *)

Section WeiboProperties.
Import GoRuntime Host Weibo.

Variable unmarshal : string -> result weiboAPIResponse.
Variable execute : template -> option weiboWidget -> HTML.

(** The filtering loop is [filter]: order is kept and nothing is added. *)
Lemma filter_loop (category : string) (l acc : list weiboHotSearchItem) :
  fold_left (filterStep category) l acc = (acc ++ filter (survives category) l)%list.
Proof.
  revert acc. induction l as [|it l IH]; intros acc; simpl.
  - now rewrite app_nil_r.
  - rewrite IH. unfold filterStep, survives.
    destruct (Word it =? "")%string; simpl; [reflexivity|].
    destruct (category =? "")%string; simpl.
    + now rewrite <- app_assoc.
    + destruct (LabelName it =? category)%string; simpl; [|reflexivity].
      now rewrite <- app_assoc.
Qed.

(** The pairing loop is [map]. *)
Lemma url_loop (l : list weiboHotSearchItem) (acc : list hotSearchWithURL) :
  fold_left urlStep l acc = (acc ++ map withSearchURL l)%list.
Proof.
  revert acc. induction l as [|it l IH]; intros acc; simpl.
  - now rewrite app_nil_r.
  - rewrite IH. unfold urlStep, withSearchURL. now rewrite <- app_assoc.
Qed.

(** The guarded slice [l[:count]] is "at most [count] when positive". *)
Lemma guarded_slice {A} (count : Z) (l : list A) :
  (if (0 <? count) && (count <? len l) then firstn (Z.to_nat count) l else l)
  = (if count <=? 0 then l else firstn (Z.to_nat count) l).
Proof.
  unfold len.
  destruct (Z.ltb_spec 0 count), (Z.leb_spec count 0); try lia; simpl; try reflexivity.
  destruct (Z.ltb_spec count (Z.of_nat (List.length l))); [reflexivity|].
  symmetry. apply firstn_all2. lia.
Qed.

Lemma filter_all_survive (l : list weiboHotSearchItem) :
  Forall (fun it => Word it <> "") l -> filter (survives "") l = l.
Proof.
  induction 1 as [|it l Hit _ IH]; simpl; [reflexivity|].
  unfold survives at 1. simpl.
  destruct (String.eqb_spec (Word it) ""); [contradiction|]. simpl. now rewrite IH.
Qed.

(** A client without timeout hands over the network's answer when the
    request's context is not cancelled in the meantime. *)
Lemma clientDo_answer (ctx : context) (req : httpRequest) (wd : world)
    (resp : httpResponse) (wait : N) :
  reqCtx req = ctx ->
  transport wd req = (Ok resp, wait) ->
  uncancelled ctx wd wait ->
  clientDo (Some {| Timeout := 0 |}) req wd
  = Some (Ok resp, {| now := now wd + Z.of_N wait; transport := transport wd;
                      requests := (requests wd ++ [req])%list; stdout := stdout wd |}).
Proof.
  intros Hctx Ht Hc. unfold clientDo. rewrite Ht, Hctx. simpl.
  unfold uncancelled in Hc. destruct (cancelAt ctx) as [tc|].
  - destruct Hc as [H1 H2].
    destruct (Z.leb_spec tc (now wd)); [lia|].
    destruct (Z.ltb_spec tc (now wd + Z.of_N wait)); [lia|]. reflexivity.
  - reflexivity.
Qed.

Lemma hotSearchRequest_ctx (ctx : context) : reqCtx (hotSearchRequest ctx) = ctx.
Proof. reflexivity. Qed.

(** What [initialize] leaves in [ShowCount], and where it lies. *)
Lemma initialize_ShowCount (w : weiboWidget) :
  ShowCount (fst (initialize w))
  = (if chosenCount w <=? 0 then 10 else if 50 <? chosenCount w then 50 else chosenCount w)
  /\ 1 <= ShowCount (fst (initialize w)) <= 50
  /\ Category (fst (initialize w)) = Category w.
Proof.
  unfold initialize, chosenCount. simpl.
  destruct (Z.ltb_spec 0 (Limit w)); simpl;
    [ destruct (Z.leb_spec (Limit w) 0); simpl; [lia|];
      destruct (Z.ltb_spec 50 (Limit w)); simpl
    | destruct (Z.leb_spec (ShowCount w) 0); simpl;
      [ | destruct (Z.ltb_spec 50 (ShowCount w)); simpl ] ];
    destruct (RefreshInterval w <=? 0); simpl; repeat split; lia.
Qed.

(** C1.  When the hot-search request is answered with status 200 and a body
    that decodes to a payload whose status flag is 1, [fetchWeiboHotSearch]
    returns, each with its search URL, the realtime entries followed by the
    government entries in the provider's order, without the entries whose
    word is empty, without the entries whose label is not exactly the
    configured category when one is configured, cut to the display count
    when that is positive and uncut otherwise.  With no word empty, no
    category and a positive display count (which [initialize] ensures) the
    result has exactly [min (N + M) count] items. *)
Theorem fetch_selects_entries
    (ctx : context) (widget : weiboWidget) (wd : world)
    (resp : httpResponse) (wait : N) (body : string) (payload : weiboAPIResponse) :
  transport wd (hotSearchRequest ctx) = (Ok resp, wait) ->
  uncancelled ctx wd wait ->
  StatusCode resp = StatusOK ->
  Body resp = BodyBytes body ->
  unmarshal body = Ok payload ->
  OK payload = 1 ->
  let realtime := Realtime (Data payload) in
  let hotgovs := Hotgovs (Data payload) in
  let selected :=
    selectEntries (Category widget) (ShowCount widget) realtime hotgovs in
  (exists wd', fetchWeiboHotSearch unmarshal ctx widget wd
               = Some (Ok (map withSearchURL selected), wd'))
  /\ (Category widget = "" ->
      Forall (fun it => Word it <> "") (realtime ++ hotgovs)%list ->
      0 < ShowCount widget ->
      len (map withSearchURL selected)
      = Z.min (len realtime + len hotgovs) (ShowCount widget))
  /\ (forall cfg, 0 < ShowCount (fst (initialize cfg))).
Proof.
  intros Ht Hc Hs Hb Hu Hok realtime hotgovs selected. split; [|split].
  - unfold fetchWeiboHotSearch, bind.
    rewrite (clientDo_answer ctx _ wd resp wait (hotSearchRequest_ctx ctx) Ht Hc).
    rewrite Hs, Z.eqb_refl. simpl. rewrite Hb, Hu, Hok. simpl.
    rewrite filter_loop, guarded_slice, url_loop. simpl.
    eexists. reflexivity.
  - intros Hcat Hwords Hpos. subst selected. unfold selectEntries.
    rewrite Hcat, (filter_all_survive _ Hwords).
    destruct (Z.leb_spec (ShowCount widget) 0); [lia|].
    unfold len. rewrite length_map, length_firstn, length_app. lia.
  - intros cfg. pose proof (initialize_ShowCount cfg) as [_ [H _]]. lia.
Qed.

Lemma fetch_returns (ctx : context) (w : weiboWidget) (wd : world) :
  exists r wd', fetchWeiboHotSearch unmarshal ctx w wd = Some (r, wd').
Proof.
  unfold fetchWeiboHotSearch, bind.
  destruct (clientDo_sent {| Timeout := 0 |} (hotSearchRequest ctx) wd)
    as (r & t & -> & _).
  destruct r as [resp|e]; [|unfold ret; eauto].
  destruct (negb (StatusCode resp =? StatusOK)); [unfold ret; eauto|].
  destruct (Body resp); [|unfold ret; eauto].
  destruct (unmarshal b) as [p|e]; [|unfold ret; eauto].
  destruct (negb (OK p =? 1)); unfold ret; eauto.
Qed.

Lemma update_returns (ctx : context) (w : weiboWidget) (wd : world) :
  exists w' wd', update unmarshal ctx w wd = Some (w', wd').
Proof.
  unfold update, bind. destruct (fetch_returns ctx w wd) as (r & wd' & ->).
  destruct r; unfold ret, timeNow; eauto.
Qed.

(** [update] touches neither the content flag nor the configuration. *)
Lemma update_ContentAvailable (ctx : context) (w w' : weiboWidget) (wd wd' : world) :
  update unmarshal ctx w wd = Some (w', wd') ->
  ContentAvailable (base w') = ContentAvailable (base w).
Proof.
  unfold update, bind. destruct (fetchWeiboHotSearch unmarshal ctx w wd) as [[r wd1]|];
    [|discriminate].
  destruct r; unfold ret, timeNow; intros H; inversion H; reflexivity.
Qed.

(** C2.  [initialize] never fails, and the display count it leaves is
    settled thus: a positive "limit" replaces "show-count"; the value so
    chosen becomes 10 when it is zero (unset) or negative, 50 when it is
    above 50, and is kept otherwise. *)
Theorem initialize_display_count (w : weiboWidget) :
  let count := ShowCount (fst (initialize w)) in
  snd (initialize w) = None
  /\ (0 < Limit w -> chosenCount w = Limit w)
  /\ (Limit w <= 0 -> chosenCount w = ShowCount w)
  /\ (chosenCount w <= 0 -> count = 10)
  /\ (50 < chosenCount w -> count = 50)
  /\ (0 < chosenCount w <= 50 -> count = chosenCount w).
Proof.
  cbv zeta. destruct (initialize_ShowCount w) as [-> _].
  split; [reflexivity|]. unfold chosenCount.
  destruct (Z.ltb_spec 0 (Limit w));
    repeat split; intros;
    repeat match goal with
           | |- context [?a <=? ?b] => destruct (Z.leb_spec a b)
           | |- context [?a <? ?b] => destruct (Z.ltb_spec a b)
           end; lia.
Qed.

(** C8.  [FormattedHotValue] depends on the popularity value alone: from
    1,000,000 on it is the value divided by 1e6, printed with one decimal,
    followed by "M"; from 1,000 on (below 1,000,000) the value divided by
    1e3, with one decimal, followed by "K"; below that the plain decimal
    integer.  999 gives "999", 1500 gives "1.5K", 2500000 gives "2.5M". *)
Theorem FormattedHotValue_format :
  (forall a b, Num a = Num b -> FormattedHotValue a = FormattedHotValue b)
  /\ (forall it, 1000000 <= Num it ->
        FormattedHotValue it
        = formatFloat1 (float64Div (float64OfInt (Num it)) (float64OfInt 1000000)) ++ "M")
  /\ (forall it, 1000 <= Num it < 1000000 ->
        FormattedHotValue it
        = formatFloat1 (float64Div (float64OfInt (Num it)) (float64OfInt 1000)) ++ "K")
  /\ (forall it, Num it < 1000 -> FormattedHotValue it = formatInt (Num it))
  /\ FormattedHotValue (entry "" "" "" 999) = "999"
  /\ FormattedHotValue (entry "" "" "" 1500) = "1.5K"
  /\ FormattedHotValue (entry "" "" "" 2500000) = "2.5M".
Proof.
  refine (conj _ (conj _ (conj _ (conj _ (conj _ (conj _ _)))))).
  - intros a b H. unfold FormattedHotValue. now rewrite H.
  - intros it H. unfold FormattedHotValue.
    destruct (Z.leb_spec 1000000 (Num it)); [reflexivity | lia].
  - intros it H. unfold FormattedHotValue.
    destruct (Z.leb_spec 1000000 (Num it)); [lia|].
    destruct (Z.leb_spec 1000 (Num it)); [reflexivity | lia].
  - intros it H. unfold FormattedHotValue.
    destruct (Z.leb_spec 1000000 (Num it)); [lia|].
    destruct (Z.leb_spec 1000 (Num it)); [lia | reflexivity].
  - vm_compute. reflexivity.
  - vm_compute. reflexivity.
  - vm_compute. reflexivity.
Qed.

(** C10.  The hot-search widget is never without content: [initialize]
    raises the content flag, and in every state the widget then goes
    through, whatever [update] met, the flag is still up, [update] returns
    with the flag up, and [Render] changes nothing in the widget (so records
    no error) and is the full template on the current state, an empty item
    list included. *)
Theorem hot_search_never_without_content (w0 w : weiboWidget) :
  operated unmarshal execute w0 w ->
  ContentAvailable (base (fst (initialize w0))) = true
  /\ ContentAvailable (base w) = true
  /\ Render execute w = (w, execute weiboWidgetTemplate (Some w))
  /\ (forall ctx wd, exists w' wd',
        update unmarshal ctx w wd = Some (w', wd')
        /\ ContentAvailable (base w') = true).
Proof.
  intros Hop.
  assert (Hflag : ContentAvailable (base w) = true).
  { induction Hop as [|ctx wd wd' w w' _ IH Hup|w _ IH].
    - reflexivity.
    - now rewrite (update_ContentAvailable ctx w w' wd wd' Hup).
    - exact IH. }
  refine (conj eq_refl (conj Hflag (conj eq_refl _))).
  intros ctx wd. destruct (update_returns ctx w wd) as (w' & wd' & Hup).
  exists w', wd'. split; [exact Hup|].
  now rewrite (update_ContentAvailable ctx w w' wd wd' Hup).
Qed.

End WeiboProperties.

(* ===================================================================== *)
(** * Properties of the random-fact widget *)
(* ===================================================================== *)

Section RandomFactProperties.
Import GoRuntime Host RandomFact.

Variable decodeFact : string -> result rawFactResponse.
Variable decodeAI : string -> result aiResponse.
Variable urlParseError : string -> option error.
Variable systemPrompt : string.
Variable execute : template -> option randomFactWidget -> HTML.

Local Abbreviation fetchRawFact := (RandomFact.fetchRawFact decodeFact).
Local Abbreviation processWithAI := (RandomFact.processWithAI decodeAI urlParseError systemPrompt).
Local Abbreviation update := (RandomFact.update decodeFact decodeAI urlParseError systemPrompt).
Local Abbreviation Render := (RandomFact.Render execute).
Local Abbreviation serves := (RandomFact.serves decodeFact decodeAI urlParseError systemPrompt execute).

Lemma factFetches_sent (req : httpRequest) (t : Time) (wd : world) :
  factFetches (sent req t wd)
  = (factFetches wd + (if isFactFetch req then 1 else 0))%nat.
Proof.
  unfold factFetches, sent. simpl. rewrite filter_app, length_app. simpl.
  destruct (isFactFetch req); reflexivity.
Qed.

Lemma fetchRawFact_sent (c : httpClient) (w : randomFactWidget) (wd : world) :
  client w = Some c ->
  exists r t, fetchRawFact w wd = Some (r, sent rawFactRequest t wd) /\ now wd <= t.
Proof.
  intros Hc. unfold RandomFact.fetchRawFact, bind. rewrite Hc.
  destruct (clientDo_sent c rawFactRequest wd) as (r & t & -> & Ht).
  destruct r as [resp|e]; [|unfold ret; eauto].
  destruct (negb (StatusCode resp =? StatusOK)); [unfold ret; eauto|].
  destruct (Body resp); [|unfold ret; eauto].
  destruct (decodeFact b); unfold ret; eauto.
Qed.

(** A fetch that returned was made through a client, and logged. *)
Lemma fetchRawFact_inv (w : randomFactWidget) (wd wd1 : world)
    (r : result rawFactResponse) :
  fetchRawFact w wd = Some (r, wd1) ->
  exists c t, client w = Some c /\ wd1 = sent rawFactRequest t wd /\ now wd <= t.
Proof.
  intros H. destruct (client w) as [c|] eqn:Hc.
  - destruct (fetchRawFact_sent c w wd Hc) as (r' & t & H' & Ht).
    rewrite H' in H. inversion H; subst. eauto.
  - unfold RandomFact.fetchRawFact, bind, clientDo in H. rewrite Hc in H. discriminate.
Qed.

(** The rewrite call returns, sends no upstream fetch and prints nothing. *)
Lemma processWithAI_returns (c : httpClient) (w : randomFactWidget) (text : string)
    (wd : world) :
  client w = Some c ->
  exists r wd', processWithAI w text wd = Some (r, wd')
                /\ now wd <= now wd' /\ factFetches wd' = factFetches wd
                /\ stdout wd' = stdout wd.
Proof.
  intros Hc. unfold RandomFact.processWithAI.
  destruct (APIKey w =? "")%string; [unfold ret; do 2 eexists; repeat split; lia|].
  destruct (urlParseError (APIURL w)); [unfold ret; do 2 eexists; repeat split; lia|].
  unfold bind. rewrite Hc.
  destruct (clientDo_sent c (aiRequest systemPrompt w text) wd) as (r & t & -> & Ht).
  assert (Hn : factFetches (sent (aiRequest systemPrompt w text) t wd) = factFetches wd).
  { rewrite factFetches_sent. unfold isFactFetch. simpl. lia. }
  destruct r as [resp|e]; [|unfold ret; do 2 eexists; repeat split; auto].
  destruct (negb (StatusCode resp =? StatusOK));
    [unfold ret; do 2 eexists; repeat split; auto|].
  destruct (Body resp); [|unfold ret; do 2 eexists; repeat split; auto].
  destruct (decodeAI b) as [a|e]; [|unfold ret; do 2 eexists; repeat split; auto].
  destruct (aiErr a); [unfold ret; do 2 eexists; repeat split; auto|].
  destruct (Choices a); unfold ret; do 2 eexists; repeat split; auto.
Qed.

(** The cache check [update] opens with reads the clock and nothing else. *)
Lemma cache_check (w : randomFactWidget) (wd : world) :
  match CachedData w with
  | Some _ =>
      age <- timeSince (lastUpdate w) ;; ret (age <? CustomCacheDuration (base w))
  | None => ret false
  end wd
  = Some (cacheFresh w wd, wd).
Proof. unfold cacheFresh. destruct (CachedData w); reflexivity. Qed.

(** [update] within the cache window: nothing happens. *)
Lemma update_fresh (ctx : context) (w : randomFactWidget) (wd : world) :
  cacheFresh w wd = true -> update ctx w wd = Some (w, wd).
Proof.
  intros Hfresh. unfold RandomFact.update. unfold bind at 1.
  now rewrite cache_check, Hfresh.
Qed.

(** [update] outside the cache window, the upstream fetch failing. *)
Lemma update_failed (ctx : context) (w : randomFactWidget) (wd wd1 : world) (e : error) :
  cacheFresh w wd = false ->
  fetchRawFact w wd = Some (Err e, wd1) ->
  update ctx w wd
  = Some (setBase (scheduleEarlyUpdate (withError e (base w))) w,
          printed ("Error fetching raw fact: " ++ e ++ nl) wd1).
Proof.
  intros Hstale Hfetch. unfold RandomFact.update. unfold bind at 1.
  rewrite cache_check, Hstale. unfold bind at 1. now rewrite Hfetch.
Qed.

(** [update] outside the cache window, the upstream fetch succeeding: a
    record is stored whatever the rewrite call does. *)
Lemma update_stored (ctx : context) (w : randomFactWidget) (wd wd1 : world)
    (rawFact : rawFactResponse) :
  cacheFresh w wd = false ->
  fetchRawFact w wd = Some (Ok rawFact, wd1) ->
  exists processedContent source wd2,
    update ctx w wd
    = Some (setBase (scheduleNextUpdate (base w))
              (setLastUpdate (now wd2)
                 (setCachedData
                    (Some {| FactID := rfID rawFact; FactText := rfText rawFact;
                             Content := processedContent; Source := source |}) w)),
            wd2)
    /\ now wd1 <= now wd2
    /\ factFetches wd2 = factFetches wd1
    /\ (hasAIConfig w = false ->
        processedContent = rfText rawFact /\ source = "uselessfacts.jsph.pl" /\ wd2 = wd1)
    /\ (hasAIConfig w = true ->
        source = extractModelName w
        /\ exists p, processWithAI w (rfText rawFact) wd1 = Some (p, wd2)
                     /\ processedContent
                        = match p with Ok rewritten => rewritten | Err _ => rfText rawFact end).
Proof.
  intros Hstale Hfetch.
  destruct (fetchRawFact_inv w wd wd1 _ Hfetch) as (c & t & Hc & _ & _).
  assert (Hupd : update ctx w wd
    = bind (if hasAIConfig w
            then bind (processWithAI w (rfText rawFact))
                   (fun p => ret (match p with
                                  | Ok rewritten => rewritten
                                  | Err _ => rfText rawFact
                                  end, extractModelName w))
            else ret (rfText rawFact, "uselessfacts.jsph.pl"))
        (fun ps => let '(processedContent, source) := ps in
           bind timeNow (fun t =>
             ret (setBase (scheduleNextUpdate (base w))
                    (setLastUpdate t
                       (setCachedData
                          (Some {| FactID := rfID rawFact; FactText := rfText rawFact;
                                   Content := processedContent; Source := source |})
                          w))))) wd1).
  { unfold RandomFact.update. unfold bind at 1.
    rewrite cache_check, Hstale. unfold bind at 1. now rewrite Hfetch. }
  rewrite Hupd. clear Hupd. unfold bind at 1.
  destruct (hasAIConfig w).
  - destruct (processWithAI_returns c w (rfText rawFact) wd1 Hc)
      as (p & wd2 & Hp & Hclock & Hcount & _).
    unfold bind at 1. rewrite Hp. unfold ret at 1. cbv beta iota.
    unfold bind, timeNow, ret.
    eexists _, _, wd2. split; [reflexivity|].
    repeat split; try assumption; try discriminate.
    exists p. split; reflexivity.
  - unfold ret at 1. cbv beta iota. unfold bind, timeNow, ret.
    eexists _, _, wd1. split; [reflexivity|].
    repeat split; try lia; try discriminate.
Qed.

(** ** [extractModelName] *)

Lemma hasSlash_get (s : string) :
  hasSlash s = false -> forall i, String.get i s <> Some "/"%char.
Proof.
  induction s as [|c s IH]; simpl; intros H i; [discriminate|].
  apply orb_false_elim in H. destruct H as [Hc Hs].
  destruct i as [|i]; [|now apply IH].
  intros E. inversion E; subst. discriminate.
Qed.

Lemma get_slash_at (pre suf : string) :
  String.get (String.length pre) (pre ++ String "/" suf) = Some "/"%char.
Proof. induction pre as [|c pre IH]; simpl; [reflexivity | exact IH]. Qed.

Lemma get_after (pre suf : string) (c : ascii) (j : nat) :
  String.get (String.length pre + S j) (pre ++ String c suf) = String.get j suf.
Proof. induction pre as [|a pre IH]; simpl; [reflexivity | exact IH]. Qed.

Lemma substring_whole (s : string) : String.substring 0 (String.length s) s = s.
Proof. induction s as [|c s IH]; simpl; [reflexivity | now rewrite IH]. Qed.

Lemma substring_after (pre suf : string) (c : ascii) :
  String.substring (String.length pre + 1) (String.length suf) (pre ++ String c suf) = suf.
Proof.
  induction pre as [|a pre IH]; simpl; [apply substring_whole | exact IH].
Qed.

Lemma length_around (pre suf : string) (c : ascii) :
  String.length (pre ++ String c suf) = (String.length pre + S (String.length suf))%nat.
Proof. induction pre as [|a pre IH]; simpl; [reflexivity | now rewrite IH]. Qed.

(** The scan finds no ['/'] where there is none. *)
Lemma scan_without_slash (s : string) (k : nat) :
  (forall i, (i < k)%nat -> String.get i s <> Some "/"%char) ->
  lastSlashScan s k = s.
Proof.
  induction k as [|k IH]; intros H; simpl; [reflexivity|].
  destruct (String.get k s) as [c|] eqn:E; [|apply IH; intros; apply H; lia].
  destruct (Ascii.eqb_spec c "/"%char) as [->|_].
  - exfalso. apply (H k); [lia | exact E].
  - apply IH; intros; apply H; lia.
Qed.

(** The scan stops at the last ['/'] and returns what follows it. *)
Lemma scan_to_last_slash (s : string) (i k : nat) :
  (i < k)%nat ->
  String.get i s = Some "/"%char ->
  (forall j, (i < j < k)%nat -> String.get j s <> Some "/"%char) ->
  lastSlashScan s k = String.substring (i + 1) (String.length s - (i + 1)) s.
Proof.
  induction k as [|k IH]; intros Hik Hi Hafter; [lia|]. simpl.
  destruct (Nat.eq_dec i k) as [->|Hne].
  - rewrite Hi. simpl. reflexivity.
  - assert (Hk : String.get k s <> Some "/"%char) by (apply Hafter; lia).
    destruct (String.get k s) as [c|].
    + destruct (Ascii.eqb_spec c "/"%char) as [->|_]; [contradiction|].
      apply IH; [lia | exact Hi | intros; apply Hafter; lia].
    + apply IH; [lia | exact Hi | intros; apply Hafter; lia].
Qed.

(** The source label: what follows the last ['/'] of the model identifier,
    the identifier itself when it has none, "unknown" when it is empty. *)
Lemma extractModelName_suffix (w : randomFactWidget) :
  (forall pre suf, Model w = pre ++ String "/" suf -> hasSlash suf = false ->
     extractModelName w = suf)
  /\ (Model w <> "" -> hasSlash (Model w) = false -> extractModelName w = Model w)
  /\ (Model w = "" -> extractModelName w = "unknown").
Proof.
  unfold extractModelName. split; [|split].
  - intros pre suf E Hsuf. rewrite E, length_around.
    replace (String.length pre + S (String.length suf))%nat
      with (S (String.length pre + String.length suf)) by lia.
    cbn [Nat.eqb].
    rewrite (scan_to_last_slash _ (String.length pre)).
    + rewrite length_around.
      replace (String.length pre + S (String.length suf) - (String.length pre + 1))%nat
        with (String.length suf) by lia.
      apply substring_after.
    + lia.
    + apply get_slash_at.
    + intros j Hj.
      replace j with (String.length pre + S (j - String.length pre - 1))%nat by lia.
      rewrite get_after. now apply hasSlash_get.
  - intros Hne Hs. destruct (Model w) as [|c m] eqn:E; [contradiction|].
    cbn [String.length Nat.eqb]. apply scan_without_slash.
    intros i _. now apply hasSlash_get.
  - intros ->. reflexivity.
Qed.

(** ** [Render] *)

Lemma Render_without_record (w : randomFactWidget) (wd : world) :
  CachedData w = None ->
  Render w wd
  = Some ((setBase (withError "no data available"
                      (setContentAvailable false (base w))) w,
           execute (mustParseTemplate ["widget-base.html"]) None),
          printed ("No cached data available" ++ nl) wd).
Proof. intros H. unfold RandomFact.Render. now rewrite H. Qed.

Lemma Render_with_record (w : randomFactWidget) (wd : world) (d : randomFactData) :
  CachedData w = Some d ->
  Render w wd
  = Some ((setBase (setContentAvailable true (base w)) w,
           execute randomFactWidgetTemplate
             (Some (setBase (setContentAvailable true (base w)) w))),
          wd).
Proof. intros H. unfold RandomFact.Render. now rewrite H. Qed.

(** ** [update] *)

Lemma update_panics (ctx : context) (w : randomFactWidget) (wd : world) :
  cacheFresh w wd = false -> fetchRawFact w wd = None -> update ctx w wd = None.
Proof.
  intros Hstale Hfetch. unfold RandomFact.update. unfold bind at 1.
  rewrite cache_check, Hstale. unfold bind at 1. now rewrite Hfetch.
Qed.

Lemma factFetches_after_fetch (t : Time) (wd : world) :
  factFetches (sent rawFactRequest t wd) = (factFetches wd + 1)%nat.
Proof. now rewrite factFetches_sent. Qed.

(** What [update] never touches, and how it leaves the clock. *)
Lemma update_keeps (ctx : context) (w w' : randomFactWidget) (wd wd' : world) :
  update ctx w wd = Some (w', wd') ->
  lastUpdate w <= now wd ->
  CustomCacheDuration (base w') = CustomCacheDuration (base w)
  /\ client w' = client w
  /\ lastUpdate w' <= now wd'
  /\ now wd <= now wd'.
Proof.
  intros Hup Hlast. destruct (cacheFresh w wd) eqn:Hfresh.
  - rewrite (update_fresh ctx w wd Hfresh) in Hup. inversion Hup; subst.
    repeat split; try reflexivity; lia.
  - destruct (fetchRawFact w wd) as [[r wd1]|] eqn:Hfetch;
      [|rewrite (update_panics ctx w wd Hfresh Hfetch) in Hup; discriminate].
    destruct (fetchRawFact_inv w wd wd1 r Hfetch) as (c & t & Hc & -> & Ht).
    destruct r as [rawFact|e].
    + destruct (update_stored ctx w wd _ rawFact Hfresh Hfetch)
        as (pc & src & wd2 & Hup' & Hclock & _).
      rewrite Hup' in Hup. inversion Hup; subst. simpl in *.
      repeat split; try reflexivity; lia.
    + rewrite (update_failed ctx w wd _ e Hfresh Hfetch) in Hup.
      inversion Hup; subst. simpl. repeat split; try reflexivity; lia.
Qed.

(** Outside the cache window [update] returns and has made exactly one
    upstream fetch. *)
Lemma update_stale_fetches (ctx : context) (c : httpClient) (w : randomFactWidget)
    (wd : world) :
  client w = Some c ->
  cacheFresh w wd = false ->
  exists w' wd', update ctx w wd = Some (w', wd')
                 /\ factFetches wd' = (factFetches wd + 1)%nat.
Proof.
  intros Hc Hstale.
  destruct (fetchRawFact_sent c w wd Hc) as (r & t & Hfetch & Ht).
  destruct r as [rawFact|e].
  - destruct (update_stored ctx w wd _ rawFact Hstale Hfetch)
      as (pc & src & wd2 & Hup & _ & Hcount & _).
    do 2 eexists. split; [exact Hup|]. now rewrite Hcount, factFetches_after_fetch.
  - rewrite (update_failed ctx w wd _ e Hstale Hfetch).
    do 2 eexists. split; [reflexivity|]. apply factFetches_after_fetch.
Qed.

(** C3.  When a cached record exists and the time since the last update is
    strictly less than the cache duration, [update] is a no-op: the widget
    is returned as it was and so is the world (no request, no output).
    Hence an [update] that fetched and stored a record, followed by a
    second one within the window with nothing else sent in between, makes
    exactly one upstream fetch between them. *)
Theorem update_within_cache_window :
  (forall ctx w wd d,
     CachedData w = Some d ->
     timeSub (now wd) (lastUpdate w) < CustomCacheDuration (base w) ->
     update ctx w wd = Some (w, wd))
  /\ (forall ctx1 ctx2 w wd rawFact wd1,
        cacheFresh w wd = false ->
        fetchRawFact w wd = Some (Ok rawFact, wd1) ->
        exists w1 wd1',
          update ctx1 w wd = Some (w1, wd1')
          /\ forall wd2,
               requests wd2 = requests wd1' ->
               timeSub (now wd2) (lastUpdate w1) < CustomCacheDuration (base w1) ->
               update ctx2 w1 wd2 = Some (w1, wd2)
               /\ factFetches wd2 = (factFetches wd + 1)%nat).
Proof.
  assert (Hnoop : forall ctx w wd d,
     CachedData w = Some d ->
     timeSub (now wd) (lastUpdate w) < CustomCacheDuration (base w) ->
     update ctx w wd = Some (w, wd)).
  { intros ctx w wd d Hd Hage. apply update_fresh.
    unfold cacheFresh. rewrite Hd. now apply Z.ltb_lt. }
  split; [exact Hnoop|].
  intros ctx1 ctx2 w wd rawFact wd1 Hstale Hfetch.
  destruct (update_stored ctx1 w wd wd1 rawFact Hstale Hfetch)
    as (pc & src & wd1' & Hup & _ & Hcount & _).
  destruct (fetchRawFact_inv w wd wd1 _ Hfetch) as (c & t & _ & -> & _).
  do 2 eexists. split; [exact Hup|].
  intros wd2 Hreq Hage. split.
  - eapply Hnoop; [reflexivity | exact Hage].
  - unfold factFetches at 1. rewrite Hreq. fold (factFetches wd1').
    now rewrite Hcount, factFetches_after_fetch.
Qed.

(** C4.  With AI rewriting configured, when the upstream fetch succeeded
    and the rewrite call failed, [update] succeeds all the same: the cached
    record becomes the raw fact with the raw text as content and the model
    name as source, the timestamp is the current time, the next regular
    update is requested, and neither an error nor an early retry is
    recorded.  The model name is what follows the last ['/'] of the model
    identifier, the identifier itself when it has no ['/'], "unknown" when
    it is empty. *)
Theorem update_survives_rewrite_failure
    (ctx : context) (w : randomFactWidget) (wd wd1 wd2 : world)
    (rawFact : rawFactResponse) (e : error) :
  cacheFresh w wd = false ->
  fetchRawFact w wd = Some (Ok rawFact, wd1) ->
  hasAIConfig w = true ->
  processWithAI w (rfText rawFact) wd1 = Some (Err e, wd2) ->
  (exists w',
     update ctx w wd = Some (w', wd2)
     /\ CachedData w' = Some (rawRecord rawFact (extractModelName w))
     /\ lastUpdate w' = now wd2
     /\ Error (base w') = Error (base w)
     /\ scheduled (base w') = (scheduled (base w) ++ [NextUpdate])%list)
  /\ (forall v pre suf, Model v = pre ++ String "/" suf -> hasSlash suf = false ->
        extractModelName v = suf)
  /\ (forall v, Model v <> "" -> hasSlash (Model v) = false ->
        extractModelName v = Model v)
  /\ (forall v, Model v = "" -> extractModelName v = "unknown").
Proof.
  intros Hstale Hfetch Hai Hrewrite. split.
  - destruct (update_stored ctx w wd wd1 rawFact Hstale Hfetch)
      as (pc & src & wd2' & Hup & _ & _ & _ & Hcfg).
    destruct (Hcfg Hai) as (-> & p & Hp & ->).
    rewrite Hrewrite in Hp. inversion Hp; subst.
    eexists. split; [exact Hup|]. repeat split.
  - split; [|split]; intros v; apply (extractModelName_suffix v).
Qed.

(** C5 (as the code has it).  Without a cached record [Render] lowers the
    content flag, records the error "no data available" and renders the
    base template on no data; with a cached record it raises the content
    flag and renders the full template on the widget, recording no error of
    its own: the error the widget held, if any, is still there. *)
Theorem Render_contract (w : randomFactWidget) (wd : world) :
  (CachedData w = None ->
   exists w',
     Render w wd
     = Some ((w', execute (mustParseTemplate ["widget-base.html"]) None),
             printed ("No cached data available" ++ nl) wd)
     /\ ContentAvailable (base w') = false
     /\ Error (base w') = Some "no data available"
     /\ CachedData w' = None)
  /\ (forall d, CachedData w = Some d ->
      exists w',
        Render w wd = Some ((w', execute randomFactWidgetTemplate (Some w')), wd)
        /\ ContentAvailable (base w') = true
        /\ Error (base w') = Error (base w)
        /\ CachedData w' = Some d).
Proof.
  split.
  - intros Hnone. rewrite (Render_without_record w wd Hnone).
    eexists. split; [reflexivity|]. repeat split. exact Hnone.
  - intros d Hd. rewrite (Render_with_record w wd d Hd).
    eexists. split; [reflexivity|]. repeat split. exact Hd.
Qed.

(** [initialize] returns without error: the default replaces a cache
    duration of zero and no other, and the HTTP client is set up. *)
Lemma initialize_returns (cfg : randomFactWidget) (wd : world) :
  exists w0 wd0,
    initialize cfg wd = Some ((w0, None), wd0)
    /\ CustomCacheDuration (base w0)
       = (if CustomCacheDuration (base cfg) =? 0 then defaultFactCacheDuration
          else CustomCacheDuration (base cfg))
    /\ client w0 = Some {| Timeout := 30 * Second |}
    /\ lastUpdate w0 = lastUpdate cfg
    /\ CachedData w0 = CachedData cfg
    /\ now wd0 = now wd.
Proof.
  unfold initialize. cbv zeta. unfold bind.
  match goal with
  | |- context [negb (hasAIConfig ?x)] => destruct (negb (hasAIConfig x))
  end; unfold Printf, ret; cbv beta iota;
    do 2 eexists; (split; [reflexivity|]); simpl;
    destruct (CustomCacheDuration (base cfg) =? 0); repeat split.
Qed.

(** With a negative cache duration and a clock that does not run
    backwards, the cache is never fresh, and that stays so. *)
Lemma serves_negative_duration (c : httpClient) (w0 w : randomFactWidget)
    (wd0 wd : world) :
  CustomCacheDuration (base w0) < 0 ->
  client w0 = Some c ->
  lastUpdate w0 <= now wd0 ->
  serves w0 wd0 w wd ->
  CustomCacheDuration (base w) = CustomCacheDuration (base w0)
  /\ client w = Some c
  /\ lastUpdate w <= now wd.
Proof.
  intros Hneg Hc Hlast Hserves.
  induction Hserves as [|ctx w w' wd wd' _ IH Hup|w w' html wd wd' _ IH Hr|w wd wd' _ IH Hle].
  - auto.
  - destruct IH as (Hd & Hcl & Hl).
    destruct (update_keeps ctx w w' wd wd' Hup Hl) as (Hd' & Hcl' & Hl' & _).
    rewrite Hd', Hcl'. auto.
  - destruct IH as (Hd & Hcl & Hl).
    destruct (CachedData w) as [d|] eqn:Hdata.
    + rewrite (Render_with_record w wd d Hdata) in Hr. inversion Hr; subst. auto.
    + rewrite (Render_without_record w wd Hdata) in Hr. inversion Hr; subst. auto.
  - destruct IH as (Hd & Hcl & Hl). repeat split; auto. lia.
Qed.

Lemma never_fresh (w : randomFactWidget) (wd : world) :
  CustomCacheDuration (base w) < 0 -> lastUpdate w <= now wd -> cacheFresh w wd = false.
Proof.
  intros Hneg Hlast. unfold cacheFresh. destruct (CachedData w); [|reflexivity].
  apply Z.ltb_ge. unfold timeSub, minInt64, maxInt64. lia.
Qed.

(** C9.  [initialize] returns, and replaces the configured cache duration
    by the 2-hour default exactly when it is zero.  A configured duration
    that is strictly negative is therefore kept, and then, the clock never
    running backwards, in every state the widget comes to the cache check
    fails, cached record or not, and [update] makes a fresh upstream
    fetch. *)
Theorem negative_cache_duration_always_fetches :
  (forall cfg wd, exists w0 wd0,
     initialize cfg wd = Some ((w0, None), wd0)
     /\ CustomCacheDuration (base w0)
        = (if CustomCacheDuration (base cfg) =? 0 then defaultFactCacheDuration
           else CustomCacheDuration (base cfg)))
  /\ (forall cfg wd w0 err wd0 w wd',
        CustomCacheDuration (base cfg) < 0 ->
        lastUpdate cfg <= now wd ->
        initialize cfg wd = Some ((w0, err), wd0) ->
        serves w0 wd0 w wd' ->
        CustomCacheDuration (base w) = CustomCacheDuration (base cfg)
        /\ cacheFresh w wd' = false
        /\ forall ctx, exists w' wd'',
             update ctx w wd' = Some (w', wd'')
             /\ factFetches wd'' = (factFetches wd' + 1)%nat).
Proof.
  split.
  - intros cfg wd. destruct (initialize_returns cfg wd) as (w0 & wd0 & H & Hd & _).
    eauto.
  - intros cfg wd w0 err wd0 w wd' Hneg Hlast Hinit Hserves.
    destruct (initialize_returns cfg wd) as (w0' & wd0' & H & Hd & Hc & Hl & _ & Hn).
    rewrite H in Hinit. inversion Hinit; subst. clear Hinit.
    destruct (Z.eqb_spec (CustomCacheDuration (base cfg)) 0) as [E|_]; [lia|].
    assert (Hinv := serves_negative_duration _ w0 w wd0 wd'
                      ltac:(lia) Hc ltac:(lia) Hserves).
    destruct Hinv as (Hd' & Hc' & Hl').
    assert (Hstale : cacheFresh w wd' = false) by (apply never_fresh; lia).
    split; [lia|]. split; [exact Hstale|].
    intros ctx. exact (update_stale_fetches ctx _ w wd' Hc' Hstale).
Qed.

End RandomFactProperties.

(* ===================================================================== *)
(** * Properties of both widgets *)
(* ===================================================================== *)

Section BothWidgets.
Import GoRuntime Host.

Variable unmarshal : string -> result Weibo.weiboAPIResponse.
Variable decodeFact : string -> result RandomFact.rawFactResponse.
Variable decodeAI : string -> result RandomFact.aiResponse.
Variable urlParseError : string -> option error.
Variable systemPrompt : string.

Local Abbreviation factUpdate :=
  (RandomFact.update decodeFact decodeAI urlParseError systemPrompt).

(** The hot-search request carries the context [update] was given, and a
    context cancelled before the answer is there makes [update] fail: the
    error is stored, an early retry requested, the items kept. *)
Lemma hot_search_update_cancelled (ctx : context) (w : Weibo.weiboWidget)
    (wd : world) (tc : Time) :
  cancelAt ctx = Some tc ->
  tc <= now wd \/ tc < now wd + Z.of_N (snd (transport wd (Weibo.hotSearchRequest ctx))) ->
  reqCtx (Weibo.hotSearchRequest ctx) = ctx
  /\ exists w' wd',
       Weibo.update unmarshal ctx w wd = Some (w', wd')
       /\ Error (Weibo.base w')
          = Some ("请求失败: " ++ urlError (Weibo.hotSearchRequest ctx) "context canceled")
       /\ scheduled (Weibo.base w') = (scheduled (Weibo.base w) ++ [EarlyUpdate])%list
       /\ Weibo.HotSearches w' = Weibo.HotSearches w
       /\ Weibo.LastUpdated w' = Weibo.LastUpdated w
       /\ now wd' = Z.max (now wd) tc.
Proof.
  intros Hc Hwhen. split; [reflexivity|].
  unfold Weibo.update, Weibo.fetchWeiboHotSearch, bind, clientDo.
  destruct (transport wd (Weibo.hotSearchRequest ctx)) as [answer wait] eqn:Ht.
  change (reqCtx (Weibo.hotSearchRequest ctx)) with ctx. rewrite Hc.
  simpl in Hwhen.
  assert (Hcan : (tc <=? now wd) || (tc <? now wd + Z.of_N wait) = true).
  { apply orb_true_iff. destruct Hwhen; [left; now apply Z.leb_le | right; now apply Z.ltb_lt]. }
  rewrite Hcan. simpl. do 2 eexists. repeat split.
Qed.

(** C7.  For both widgets, when the upstream fetch fails, [update] stores
    the error on the widget and asks the host for an early retry, and the
    cached data and the timestamp stay as they were; whenever [update]
    changed either of the two, the upstream fetch had succeeded. *)
Theorem failed_fetch_keeps_cache :
  (forall ctx w wd e wd1,
     Weibo.fetchWeiboHotSearch unmarshal ctx w wd = Some (Err e, wd1) ->
     exists w',
       Weibo.update unmarshal ctx w wd = Some (w', wd1)
       /\ Error (Weibo.base w') = Some e
       /\ scheduled (Weibo.base w') = (scheduled (Weibo.base w) ++ [EarlyUpdate])%list
       /\ Weibo.HotSearches w' = Weibo.HotSearches w
       /\ Weibo.LastUpdated w' = Weibo.LastUpdated w)
  /\ (forall ctx w wd w' wd',
        Weibo.update unmarshal ctx w wd = Some (w', wd') ->
        Weibo.HotSearches w' <> Weibo.HotSearches w
        \/ Weibo.LastUpdated w' <> Weibo.LastUpdated w ->
        exists hotSearches,
          Weibo.fetchWeiboHotSearch unmarshal ctx w wd = Some (Ok hotSearches, wd')
          /\ Weibo.HotSearches w' = hotSearches
          /\ Weibo.LastUpdated w' = now wd')
  /\ (forall ctx w wd e wd1,
        RandomFact.cacheFresh w wd = false ->
        RandomFact.fetchRawFact decodeFact w wd = Some (Err e, wd1) ->
        exists w' wd',
          factUpdate ctx w wd = Some (w', wd')
          /\ Error (RandomFact.base w') = Some e
          /\ scheduled (RandomFact.base w')
             = (scheduled (RandomFact.base w) ++ [EarlyUpdate])%list
          /\ RandomFact.CachedData w' = RandomFact.CachedData w
          /\ RandomFact.lastUpdate w' = RandomFact.lastUpdate w)
  /\ (forall ctx w wd w' wd',
        factUpdate ctx w wd = Some (w', wd') ->
        RandomFact.CachedData w' <> RandomFact.CachedData w
        \/ RandomFact.lastUpdate w' <> RandomFact.lastUpdate w ->
        exists rawFact wd1,
          RandomFact.fetchRawFact decodeFact w wd = Some (Ok rawFact, wd1)
          /\ RandomFact.lastUpdate w' = now wd').
Proof.
  refine (conj _ (conj _ (conj _ _))).
  - intros ctx w wd e wd1 Hfetch. unfold Weibo.update, bind. rewrite Hfetch.
    eexists. split; [reflexivity|]. repeat split.
  - intros ctx w wd w' wd' Hup Hchanged. unfold Weibo.update, bind in Hup.
    destruct (Weibo.fetchWeiboHotSearch unmarshal ctx w wd) as [[r wd1]|];
      [|discriminate].
    destruct r as [hs|e]; unfold ret, timeNow in Hup; inversion Hup; subst.
    + exists hs. repeat split.
    + simpl in Hchanged. destruct Hchanged as [H|H]; now destruct H.
  - intros ctx w wd e wd1 Hstale Hfetch.
    rewrite (update_failed decodeFact decodeAI urlParseError systemPrompt
               ctx w wd wd1 e Hstale Hfetch).
    do 2 eexists. split; [reflexivity|]. repeat split.
  - intros ctx w wd w' wd' Hup Hchanged.
    destruct (RandomFact.cacheFresh w wd) eqn:Hfresh.
    + rewrite (update_fresh decodeFact decodeAI urlParseError systemPrompt
                 ctx w wd Hfresh) in Hup.
      inversion Hup; subst. destruct Hchanged as [H|H]; now destruct H.
    + destruct (RandomFact.fetchRawFact decodeFact w wd) as [[r wd1]|] eqn:Hfetch.
      * destruct r as [rawFact|e].
        -- destruct (update_stored decodeFact decodeAI urlParseError systemPrompt
                       ctx w wd wd1 rawFact Hfresh Hfetch)
             as (pc & src & wd2 & Hup' & _).
           rewrite Hup' in Hup. inversion Hup; subst. do 2 eexists. split; reflexivity.
        -- rewrite (update_failed decodeFact decodeAI urlParseError systemPrompt
                      ctx w wd wd1 e Hfresh Hfetch) in Hup.
           inversion Hup; subst. simpl in Hchanged.
           destruct Hchanged as [H|H]; now destruct H.
      * rewrite (update_panics decodeFact decodeAI urlParseError systemPrompt
                   ctx w wd Hfresh Hfetch) in Hup. discriminate.
Qed.

End BothWidgets.

(* ===================================================================== *)
(** * The widgets at work: concrete runs *)
(* ===================================================================== *)

Section Runs.
Import GoRuntime Host.

(** Evaluate the run on the left and read the outcome off. *)
Ltac run := cbv; reflexivity.

(** C6 fails on the random-fact widget.  Its upstream request is made with
    [context.Background()], and [update] does the same whatever context it
    is given: with a context cancelled before the call and a network that
    answers after 5 ns, the fact widget's [update] completes and caches the
    fact, where the hot-search widget's [update], whose request carries the
    context, fails with "context canceled" and asks for an early retry. *)
Theorem fact_update_ignores_cancellation :
  reqCtx RandomFact.rawFactRequest = Background
  /\ (forall decodeFact decodeAI urlParseError systemPrompt ctx ctx' w wd,
        RandomFact.update decodeFact decodeAI urlParseError systemPrompt ctx w wd
        = RandomFact.update decodeFact decodeAI urlParseError systemPrompt ctx' w wd)
  /\ (let cancelled := {| cancelAt := Some 0 |} in
      let wd := worldAt 1000 (RandomFact.network 200 500 5) in
      (exists w' wd',
         RandomFact.update RandomFact.decodePenguins RandomFact.decodeNothing
           RandomFact.everyURLParses "" cancelled
           (RandomFact.ready "" "" "" (2 * Hour)) wd
         = Some (w', wd')
         /\ RandomFact.CachedData w'
            = Some (RandomFact.rawRecord RandomFact.penguins "uselessfacts.jsph.pl")
         /\ Error (RandomFact.base w') = None
         /\ scheduled (RandomFact.base w') = [NextUpdate]
         /\ requests wd' = [RandomFact.rawFactRequest]
         /\ now wd' = 1005)
      /\ (exists w' wd',
            Weibo.update (fun _ => Ok (Weibo.payloadOf [] [])) cancelled
              (Weibo.configured 10 0 "" 30) wd
            = Some (w', wd')
            /\ Error (Weibo.base w')
               = Some ("请求失败: Get " ++ quote ++ "https://weibo.com/ajax/side/hotSearch"
                         ++ quote ++ ": context canceled")
            /\ scheduled (Weibo.base w') = [EarlyUpdate]
            /\ reqCtx (Weibo.hotSearchRequest cancelled) = cancelled
            /\ now wd' = 1000)).
Proof.
  split; [reflexivity|]. split; [reflexivity|]. cbv zeta. split.
  - do 2 eexists. split; [run|]. repeat split.
  - do 2 eexists. split; [run|]. repeat split.
Qed.

(** C5 as stated fails: a widget that cached a fact and whose next refresh,
    three hours later, met status 500 holds both a cached record and an
    error; [Render] then shows the record and the error is still there. *)
Lemma Render_keeps_earlier_error :
  exists w0 wd0 w1 wd1 w2 wd2 w3 html,
    RandomFact.initialize (RandomFact.configured "" "" "" 0)
      (worldAt 1000 (RandomFact.network 200 500 5))
    = Some ((w0, None), wd0)
    /\ RandomFact.update RandomFact.decodePenguins RandomFact.decodeNothing
         RandomFact.everyURLParses "" Background w0 wd0
       = Some (w1, wd1)
    /\ RandomFact.update RandomFact.decodePenguins RandomFact.decodeNothing
         RandomFact.everyURLParses "" Background w1
         (elapse (3 * Hour) (RandomFact.network 500 500 5) wd1)
       = Some (w2, wd2)
    /\ RandomFact.CachedData w2
       = Some (RandomFact.rawRecord RandomFact.penguins "uselessfacts.jsph.pl")
    /\ RandomFact.Render RandomFact.templateName w2 wd2 = Some ((w3, html), wd2)
    /\ html = "random-fact.html+widget-base.html"
    /\ ContentAvailable (RandomFact.base w3) = true
    /\ Error (RandomFact.base w3) = Some "API returned status code 500".
Proof.
  do 8 eexists.
  split; [run|]. split; [run|]. split; [run|].
  split; [reflexivity|]. split; [run|]. repeat split.
Qed.

(** C10 at work: a hot-search widget whose first [update] met status 503
    has an error and no items, and still has content. *)
Lemma hot_search_never_without_content_witness :
  exists w wd,
    Weibo.update (fun _ => Ok (Weibo.payloadOf [] [])) Background
      (fst (Weibo.initialize (Weibo.configured 0 0 "" 0)))
      (worldAt 1000 (answering 503 "" 5))
    = Some (w, wd)
    /\ Error (Weibo.base w) = Some ("API请求失败，状态码: 503")
    /\ Weibo.HotSearches w = []
    /\ ContentAvailable (Weibo.base w) = true
    /\ Weibo.Render (fun t _ => String.concat "+" t) w
       = (w, "weibo.html+widget-base.html").
Proof.
  do 2 eexists. split; [run|]. split; [reflexivity|]. split; [reflexivity|].
  pose proof (hot_search_never_without_content
                (fun _ => Ok (Weibo.payloadOf [] [])) (fun t _ => String.concat "+" t)
                (Weibo.configured 0 0 "" 0) _
                (Weibo.operated_update _ _ _ Background
                   (worldAt 1000 (answering 503 "" 5)) _ _ _
                   (Weibo.operated_initialize _ _ _) eq_refl))
    as (_ & Hflag & Hrender & _).
  split; [exact Hflag | exact Hrender].
Defined.

(** C3 at work: a first [update] at instant 1000 fetches and stores the
    fact; a second one an hour later, inside the two-hour window, changes
    nothing, and the world has seen one upstream fetch. *)
Lemma update_within_cache_window_witness :
  exists w1 wd1,
    RandomFact.update RandomFact.decodePenguins RandomFact.decodeNothing
      RandomFact.everyURLParses "" Background
      (RandomFact.ready "" "" "" (2 * Hour))
      (worldAt 1000 (RandomFact.network 200 500 5))
    = Some (w1, wd1)
    /\ RandomFact.update RandomFact.decodePenguins RandomFact.decodeNothing
         RandomFact.everyURLParses "" Background w1
         (elapse Hour (RandomFact.network 200 500 5) wd1)
       = Some (w1, elapse Hour (RandomFact.network 200 500 5) wd1)
    /\ RandomFact.factFetches (elapse Hour (RandomFact.network 200 500 5) wd1) = 1%nat.
Proof.
  destruct (proj2 (update_within_cache_window RandomFact.decodePenguins
                     RandomFact.decodeNothing RandomFact.everyURLParses "")
              Background Background (RandomFact.ready "" "" "" (2 * Hour))
              (worldAt 1000 (RandomFact.network 200 500 5)) RandomFact.penguins
              (sent RandomFact.rawFactRequest 1005
                 (worldAt 1000 (RandomFact.network 200 500 5)))
              eq_refl eq_refl)
    as (w1 & wd1 & Hup & Hsecond).
  exists w1, wd1. split; [exact Hup|].
  assert (E : Some (w1, wd1)
              = Some (RandomFact.setBase
                        (scheduleNextUpdate (RandomFact.base (RandomFact.ready "" "" "" (2 * Hour))))
                        (RandomFact.setLastUpdate 1005
                           (RandomFact.setCachedData
                              (Some (RandomFact.rawRecord RandomFact.penguins
                                       "uselessfacts.jsph.pl"))
                              (RandomFact.ready "" "" "" (2 * Hour)))),
                      sent RandomFact.rawFactRequest 1005
                        (worldAt 1000 (RandomFact.network 200 500 5)))).
  { rewrite <- Hup. run. }
  inversion E; subst.
  apply (Hsecond (elapse Hour (RandomFact.network 200 500 5) _)); reflexivity.
Defined.

(** C4 at work: the rewrite endpoint answers 500; the record holds the raw
    text and the source "Qwen3-8B". *)
Lemma update_survives_rewrite_failure_witness :
  exists w',
    RandomFact.update RandomFact.decodePenguins RandomFact.decodeNothing
      RandomFact.everyURLParses "" Background
      (RandomFact.ready "sk-1" "Qwen/Qwen3-8B" "https://api.siliconflow.cn/v1/chat/completions"
         (2 * Hour))
      (worldAt 1000 (RandomFact.network 200 500 5))
    = Some (w',
            sent (RandomFact.aiRequest ""
                    (RandomFact.ready "sk-1" "Qwen/Qwen3-8B"
                       "https://api.siliconflow.cn/v1/chat/completions" (2 * Hour))
                    "Penguins actually have knees.") 1010
              (sent RandomFact.rawFactRequest 1005
                 (worldAt 1000 (RandomFact.network 200 500 5))))
    /\ RandomFact.CachedData w'
       = Some {| RandomFact.FactID := "f1";
                 RandomFact.FactText := "Penguins actually have knees.";
                 RandomFact.Content := "Penguins actually have knees.";
                 RandomFact.Source := "Qwen3-8B" |}
    /\ Error (RandomFact.base w') = None.
Proof.
  destruct (proj1 (update_survives_rewrite_failure RandomFact.decodePenguins
                     RandomFact.decodeNothing RandomFact.everyURLParses ""
                     Background
                     (RandomFact.ready "sk-1" "Qwen/Qwen3-8B"
                        "https://api.siliconflow.cn/v1/chat/completions" (2 * Hour))
                     (worldAt 1000 (RandomFact.network 200 500 5))
                     (sent RandomFact.rawFactRequest 1005
                        (worldAt 1000 (RandomFact.network 200 500 5)))
                     (sent (RandomFact.aiRequest ""
                              (RandomFact.ready "sk-1" "Qwen/Qwen3-8B"
                                 "https://api.siliconflow.cn/v1/chat/completions" (2 * Hour))
                              "Penguins actually have knees.") 1010
                        (sent RandomFact.rawFactRequest 1005
                           (worldAt 1000 (RandomFact.network 200 500 5))))
                     RandomFact.penguins "AI API returned status code 500"
                     eq_refl eq_refl eq_refl eq_refl))
    as (w' & Hup & Hdata & _ & Herr & _).
  exists w'. split; [exact Hup|]. split; [rewrite Hdata; reflexivity | exact Herr].
Defined.

(** C9 at work: a cache duration of minus one hour survives [initialize],
    and an [update] one second after a successful one fetches again. *)
Lemma negative_cache_duration_always_fetches_witness :
  let w0 := RandomFact.ready "" "" "" (- Hour) in
  let wd0 := printed ("AI API not configured, will use raw facts only" ++ RandomFact.nl)
               (worldAt 1000 (RandomFact.network 200 500 5)) in
  let w1 := RandomFact.setBase (scheduleNextUpdate (RandomFact.base w0))
              (RandomFact.setLastUpdate 1005
                 (RandomFact.setCachedData
                    (Some (RandomFact.rawRecord RandomFact.penguins "uselessfacts.jsph.pl"))
                    w0)) in
  let wd1 := sent RandomFact.rawFactRequest 1005 wd0 in
  RandomFact.initialize (RandomFact.configured "" "" "" (- Hour))
    (worldAt 1000 (RandomFact.network 200 500 5))
  = Some ((w0, None), wd0)
  /\ RandomFact.update RandomFact.decodePenguins RandomFact.decodeNothing
       RandomFact.everyURLParses "" Background w0 wd0
     = Some (w1, wd1)
  /\ exists w2 wd2,
       RandomFact.update RandomFact.decodePenguins RandomFact.decodeNothing
         RandomFact.everyURLParses "" Background w1
         (elapse Second (RandomFact.network 200 500 5) wd1)
       = Some (w2, wd2)
       /\ RandomFact.factFetches wd2 = 2%nat.
Proof.
  intros w0 wd0 w1 wd1.
  assert (Hinit : RandomFact.initialize (RandomFact.configured "" "" "" (- Hour))
                    (worldAt 1000 (RandomFact.network 200 500 5))
                  = Some ((w0, None), wd0)) by reflexivity.
  assert (Hup : RandomFact.update RandomFact.decodePenguins RandomFact.decodeNothing
                  RandomFact.everyURLParses "" Background w0 wd0
                = Some (w1, wd1)) by reflexivity.
  split; [exact Hinit|]. split; [exact Hup|].
  assert (Hstart : RandomFact.lastUpdate (RandomFact.configured "" "" "" (- Hour))
                   <= now (worldAt 1000 (RandomFact.network 200 500 5)))
    by (cbv; intros H; discriminate H).
  assert (Hlater : now wd1 <= now (elapse Second (RandomFact.network 200 500 5) wd1))
    by (cbv; intros H; discriminate H).
  destruct (proj2 (proj2 (proj2 (negative_cache_duration_always_fetches
                     RandomFact.decodePenguins RandomFact.decodeNothing
                     RandomFact.everyURLParses "" RandomFact.templateName)
              (RandomFact.configured "" "" "" (- Hour))
              (worldAt 1000 (RandomFact.network 200 500 5)) w0 None wd0 w1
              (elapse Second (RandomFact.network 200 500 5) wd1)
              eq_refl Hstart Hinit
              (RandomFact.serves_wait _ _ _ _ _ _ _ _ _ _
                 (RandomFact.serves_update _ _ _ _ _ _ _ Background _ _ _ _
                    (RandomFact.serves_start _ _ _ _ _ _ _) Hup)
                 Hlater))) Background)
    as (w2 & wd2 & Hup2 & Hcount).
  exists w2, wd2. split; [exact Hup2|].
  rewrite Hcount. reflexivity.
Defined.

(** C1 at work: three entries, a display count of two. *)
Lemma fetch_selects_entries_witness :
  exists wd',
    Weibo.fetchWeiboHotSearch
      (fun _ => Ok (Weibo.payloadOf [Weibo.entry "a" "" "#a#" 1500; Weibo.entry "b" "x" "b c" 10]
                              [Weibo.entry "c" "" "c" 999]))
      Background (Weibo.configured 2 0 "" 0) (worldAt 1000 (answering 200 "{}" 5))
    = Some (Ok [Weibo.withSearchURL (Weibo.entry "a" "" "#a#" 1500);
                Weibo.withSearchURL (Weibo.entry "b" "x" "b c" 10)], wd').
Proof.
  exact (proj1 (fetch_selects_entries
                  (fun _ => Ok (Weibo.payloadOf [Weibo.entry "a" "" "#a#" 1500; Weibo.entry "b" "x" "b c" 10]
                                          [Weibo.entry "c" "" "c" 999]))
                  Background (Weibo.configured 2 0 "" 0)
                  (worldAt 1000 (answering 200 "{}" 5))
                  {| StatusCode := 200; Body := BodyBytes "{}" |} 5 "{}"
                  (Weibo.payloadOf [Weibo.entry "a" "" "#a#" 1500; Weibo.entry "b" "x" "b c" 10]
                             [Weibo.entry "c" "" "c" 999])
                  eq_refl I eq_refl eq_refl eq_refl eq_refl)).
Defined.

(** C7 at work: status 503 for the hot-search widget, status 500 for the
    fact widget; each keeps what it had and stores the error. *)
Lemma failed_fetch_keeps_cache_witness :
  (exists w',
     Weibo.update (fun _ => Ok (Weibo.payloadOf [] [])) Background
       (Weibo.configured 10 0 "" 30) (worldAt 1000 (answering 503 "" 5))
     = Some (w', sent (Weibo.hotSearchRequest Background) 1005
                   (worldAt 1000 (answering 503 "" 5)))
     /\ Error (Weibo.base w') = Some "API请求失败，状态码: 503"
     /\ scheduled (Weibo.base w') = [EarlyUpdate]
     /\ Weibo.LastUpdated w' = zeroTime)
  /\ (exists w' wd',
        RandomFact.update RandomFact.decodePenguins RandomFact.decodeNothing
          RandomFact.everyURLParses "" Background
          (RandomFact.ready "" "" "" (2 * Hour))
          (worldAt 1000 (RandomFact.network 500 500 5))
        = Some (w', wd')
        /\ Error (RandomFact.base w') = Some "API returned status code 500"
        /\ scheduled (RandomFact.base w') = [EarlyUpdate]
        /\ RandomFact.CachedData w' = None).
Proof.
  pose proof (failed_fetch_keeps_cache (fun _ => Ok (Weibo.payloadOf [] []))
                RandomFact.decodePenguins RandomFact.decodeNothing
                RandomFact.everyURLParses "") as (Hweibo & _ & Hfact & _).
  split.
  - destruct (Hweibo Background (Weibo.configured 10 0 "" 30)
                (worldAt 1000 (answering 503 "" 5)) "API请求失败，状态码: 503"
                (sent (Weibo.hotSearchRequest Background) 1005
                   (worldAt 1000 (answering 503 "" 5))) eq_refl)
      as (w' & Hup & Herr & Hsched & _ & Hlast).
    exists w'. repeat split; assumption.
  - destruct (Hfact Background (RandomFact.ready "" "" "" (2 * Hour))
                (worldAt 1000 (RandomFact.network 500 500 5))
                "API returned status code 500"
                (sent RandomFact.rawFactRequest 1005
                   (worldAt 1000 (RandomFact.network 500 500 5))) eq_refl eq_refl)
      as (w' & wd' & Hup & Herr & Hsched & Hdata & _).
    exists w', wd'. repeat split; assumption.
Defined.

(** [ready] is what [initialize] makes of a configuration; a cache duration
    left at zero comes out as two hours. *)
Example initialize_ready :
  RandomFact.initialize (RandomFact.configured "sk-1" "Qwen/Qwen3-8B" "https://ai" 0)
    (worldAt 1000 (RandomFact.network 200 500 5))
  = Some ((RandomFact.ready "sk-1" "Qwen/Qwen3-8B" "https://ai" (2 * Hour), None),
          worldAt 1000 (RandomFact.network 200 500 5)).
Proof. reflexivity. Qed.

End Runs.

(* ===================================================================== *)
(** * Further properties of the hot-search widget *)
(* ===================================================================== *)

Section HotSearchCoverage.
Import GoRuntime Host Weibo.

Variable unmarshal : string -> result weiboAPIResponse.
Variable execute : template -> option weiboWidget -> HTML.

(** ** [CategoryDisplayName] *)

Lemma mapIndex_In (m : list (string * string)) (key : string) :
  ~ In key (map fst m) -> mapIndex m key = None.
Proof.
  induction m as [|[k v] m IH]; simpl; intros H; [reflexivity|].
  destruct (String.eqb_spec k key) as [->|_]; [exfalso; auto|]. apply IH. tauto.
Qed.

(** The cases of a lookup in the category table. *)
Lemma categoryMap_cases (label : string) :
  (mapIndex categoryMap label = None /\ ~ In label (map fst categoryMap))
  \/ exists abbr, mapIndex categoryMap label = Some abbr
                  /\ In (label, abbr) categoryMap
                  /\ mapIndex categoryMap abbr = None
                  /\ (String.length abbr < String.length label)%nat
                  /\ abbr <> "".
Proof.
  unfold categoryMap. cbn [mapIndex].
  repeat match goal with
         | |- context [(?k =? label)%string] =>
             destruct (String.eqb_spec k label) as [<-|?];
             [right; eexists; split; [reflexivity|];
              split; [cbn; tauto|]; split; [reflexivity|]; split; [cbn; lia | discriminate]|]
         end.
  left. split; [reflexivity|]. cbn. intuition congruence.
Qed.

(** X1.  [CategoryDisplayName] returns a label outside the table unchanged
    and the table's abbreviation for a label inside it; the name it
    returns is never longer than the label, is empty only for the empty
    label, and is itself outside the table, so that abbreviating twice is
    abbreviating once. *)
Theorem CategoryDisplayName_abbreviates :
  (forall it, ~ In (LabelName it) (map fst categoryMap) ->
     CategoryDisplayName it = LabelName it)
  /\ (forall it abbr, In (LabelName it, abbr) categoryMap ->
        CategoryDisplayName it = abbr)
  /\ (forall it,
        (String.length (CategoryDisplayName it) <= String.length (LabelName it))%nat)
  /\ (forall it, CategoryDisplayName it = "" <-> LabelName it = "")
  /\ (forall a b, LabelName b = CategoryDisplayName a ->
        CategoryDisplayName b = CategoryDisplayName a).
Proof.
  refine (conj _ (conj _ (conj _ (conj _ _)))).
  - intros it H. unfold CategoryDisplayName. now rewrite mapIndex_In.
  - intros it abbr H. unfold CategoryDisplayName.
    unfold categoryMap in H. cbn [In] in H.
    repeat (destruct H as [H|H];
            [injection H as Hl Ha; rewrite <- Hl, <- Ha; reflexivity|]).
    contradiction.
  - intros it. unfold CategoryDisplayName.
    destruct (categoryMap_cases (LabelName it)) as [[-> _]|(abbr & -> & _ & _ & Hlen & _)]; lia.
  - intros it. unfold CategoryDisplayName.
    destruct (categoryMap_cases (LabelName it)) as [[-> _]|(abbr & -> & _ & _ & Hlen & Hne)].
    + tauto.
    + split; [contradiction|]. intros E. rewrite E in Hlen. simpl in Hlen. lia.
  - intros a b Hb. unfold CategoryDisplayName at 1. rewrite Hb.
    unfold CategoryDisplayName.
    destruct (categoryMap_cases (LabelName a)) as [[E _]|(abbr & E & _ & Hout & _)];
      rewrite E.
    + now rewrite E.
    + now rewrite Hout.
Qed.

(** ** [initialize] *)

Lemma wrap64_range (z : Z) : minInt64 <= wrap64 z <= maxInt64.
Proof.
  unfold wrap64, minInt64, maxInt64.
  pose proof (Z.mod_pos_bound (z + 2 ^ 63) (2 ^ 64) ltac:(lia)). lia.
Qed.

Lemma wrap64_small (z : Z) : minInt64 <= z <= maxInt64 -> wrap64 z = z.
Proof.
  unfold wrap64, minInt64, maxInt64. intros H.
  rewrite Z.mod_small; lia.
Qed.

(** [initialize], in one piece. *)
Lemma initialize_eq (w : weiboWidget) :
  let count := chosenCount w in
  let interval := if RefreshInterval w <=? 0 then 30 else RefreshInterval w in
  initialize w
  = ({| base := {| Title := "Weibo HotSearch";
                   CustomCacheDuration := CustomCacheDuration (base w);
                   ContentAvailable := true;
                   Error := Error (base w);
                   cacheDuration := durationMul interval Minute;
                   scheduled := scheduled (base w) |};
        ShowCount := (if count <=? 0 then 10 else if 50 <? count then 50 else count);
        Limit := Limit w;
        Category := Category w;
        RefreshInterval := interval;
        HotSearches := HotSearches w;
        LastUpdated := LastUpdated w |}, None).
Proof.
  unfold initialize, chosenCount. cbn.
  destruct (Z.ltb_spec 0 (Limit w)); cbn;
    [ destruct (Z.leb_spec (Limit w) 0); cbn; [lia|];
      destruct (Z.ltb_spec 50 (Limit w)); cbn
    | destruct (Z.leb_spec (ShowCount w) 0); cbn;
      [ | destruct (Z.ltb_spec 50 (ShowCount w)); cbn ] ];
    destruct (RefreshInterval w <=? 0); reflexivity.
Qed.

(** X2.  [initialize] replaces a refresh interval that is zero or negative
    by 30 and keeps a positive one; the cache lifetime it sets is that many
    minutes as long as the product fits a Duration (up to 153722867
    minutes), and is not beyond: the multiplication wraps around. *)
Theorem initialize_refresh_interval (w : weiboWidget) :
  let w' := fst (initialize w) in
  (RefreshInterval w <= 0 -> RefreshInterval w' = 30)
  /\ (0 < RefreshInterval w -> RefreshInterval w' = RefreshInterval w)
  /\ (RefreshInterval w' <= 153722867 ->
      cacheDuration (base w') = RefreshInterval w' * Minute
      /\ Minute <= cacheDuration (base w'))
  /\ (153722867 < RefreshInterval w' ->
      cacheDuration (base w') <> RefreshInterval w' * Minute).
Proof.
  cbv zeta. rewrite initialize_eq. cbn [fst base RefreshInterval cacheDuration].
  assert (Hpos : 0 < (if RefreshInterval w <=? 0 then 30 else RefreshInterval w))
    by (destruct (Z.leb_spec (RefreshInterval w) 0); lia).
  refine (conj _ (conj _ (conj _ _))).
  - intros H. destruct (Z.leb_spec (RefreshInterval w) 0); lia.
  - intros H. destruct (Z.leb_spec (RefreshInterval w) 0); lia.
  - intros H. unfold durationMul. rewrite wrap64_small.
    + unfold Minute, Second. lia.
    + unfold minInt64, maxInt64, Minute, Second. lia.
  - intros H E. unfold durationMul in E.
    pose proof (wrap64_range
                  ((if RefreshInterval w <=? 0 then 30 else RefreshInterval w) * Minute))
      as Hr.
    rewrite E in Hr. unfold maxInt64, Minute, Second in Hr. lia.
Qed.

(** X3.  [initialize] is idempotent, and it leaves the limit, the category,
    the items and their timestamp as they were. *)
Theorem initialize_idempotent (w : weiboWidget) :
  initialize (fst (initialize w)) = initialize w
  /\ Limit (fst (initialize w)) = Limit w
  /\ Category (fst (initialize w)) = Category w
  /\ HotSearches (fst (initialize w)) = HotSearches w
  /\ LastUpdated (fst (initialize w)) = LastUpdated w.
Proof.
  rewrite (initialize_eq (fst (initialize w))), (initialize_eq w).
  cbn [fst base Limit Category HotSearches LastUpdated RefreshInterval ShowCount
       CustomCacheDuration Error scheduled].
  split; [|repeat split].
  unfold chosenCount. cbn [Limit ShowCount].
  assert (Hi : (if (if RefreshInterval w <=? 0 then 30 else RefreshInterval w) <=? 0
                then 30 else (if RefreshInterval w <=? 0 then 30 else RefreshInterval w))
               = (if RefreshInterval w <=? 0 then 30 else RefreshInterval w)).
  { destruct (Z.leb_spec (RefreshInterval w) 0); [reflexivity|].
    destruct (Z.leb_spec (RefreshInterval w) 0); [lia | reflexivity]. }
  rewrite Hi.
  destruct (Z.ltb_spec 0 (Limit w)) as [Hl|Hl]; [reflexivity|].
  set (c := ShowCount w).
  assert (Hclamp : let k := (if c <=? 0 then 10 else if 50 <? c then 50 else c) in
                   (if k <=? 0 then 10 else if 50 <? k then 50 else k) = k).
  { cbv zeta. destruct (Z.leb_spec c 0); [reflexivity|].
    destruct (Z.ltb_spec 50 c); [reflexivity|].
    destruct (Z.leb_spec c 0); [lia|]. destruct (Z.ltb_spec 50 c); [lia | reflexivity]. }
  cbv zeta in Hclamp. rewrite Hclamp. reflexivity.
Qed.

(** ** [fetchWeiboHotSearch] and [update] *)

(** The propositions a returned entry satisfies for a given category. *)
Lemma survives_spec (category : string) (it : weiboHotSearchItem) :
  survives category it = true ->
  Word it <> "" /\ (category = "" \/ LabelName it = category).
Proof.
  unfold survives. intros H. apply andb_prop in H. destruct H as [Hw Hc].
  split.
  - intros E. rewrite E in Hw. discriminate.
  - apply orb_prop in Hc. destruct Hc as [Hc|Hc]; apply String.eqb_eq in Hc; auto.
Qed.

Lemma In_firstn {A} (n : nat) (l : list A) (x : A) : In x (firstn n l) -> In x l.
Proof.
  revert l. induction n as [|n IH]; intros [|a l]; simpl; try tauto.
  intros [H|H]; [auto | right; now apply IH].
Qed.

Lemma selectEntries_sound (category : string) (count : Z)
    (realtime hotgovs : list weiboHotSearchItem) :
  Forall (fun it => Word it <> "" /\ (category = "" \/ LabelName it = category))
         (selectEntries category count realtime hotgovs)
  /\ (0 < count -> len (selectEntries category count realtime hotgovs) <= count).
Proof.
  unfold selectEntries. split.
  - apply Forall_forall. intros it Hin. apply survives_spec.
    destruct (count <=? 0); [|apply In_firstn in Hin];
      apply filter_In in Hin; tauto.
  - intros Hpos. destruct (Z.leb_spec count 0); [lia|].
    unfold len. pose proof (firstn_le_length (Z.to_nat count)
      (filter (survives category) (realtime ++ hotgovs))). lia.
Qed.

(** What a fetch that returned went through. *)
Lemma fetch_inv (ctx : context) (w : weiboWidget) (wd wd' : world)
    (r : result (list hotSearchWithURL)) :
  fetchWeiboHotSearch unmarshal ctx w wd = Some (r, wd') ->
  exists answer t,
    clientDo (Some {| Timeout := 0 |}) (hotSearchRequest ctx) wd = Some (answer, wd')
    /\ wd' = sent (hotSearchRequest ctx) t wd /\ now wd <= t
    /\ match r with
       | Ok items =>
           exists resp body payload,
             answer = Ok resp /\ StatusCode resp = StatusOK
             /\ Body resp = BodyBytes body /\ unmarshal body = Ok payload
             /\ OK payload = 1
             /\ items = map withSearchURL
                          (selectEntries (Category w) (ShowCount w)
                             (Realtime (Data payload)) (Hotgovs (Data payload)))
       | Err e =>
           match answer with
           | Err e' => e = "请求失败: " ++ e'
           | Ok resp =>
               if negb (StatusCode resp =? StatusOK)
               then e = "API请求失败，状态码: " ++ formatInt (StatusCode resp)
               else match Body resp with
                    | BodyReadError e' => e = "读取响应内容失败: " ++ e'
                    | BodyBytes body =>
                        match unmarshal body with
                        | Err e' => e = "解析JSON响应失败: " ++ e'
                        | Ok payload =>
                            OK payload <> 1
                            /\ e = "API返回错误状态: ok=" ++ formatInt (OK payload)
                        end
                    end
           end
       end.
Proof.
  unfold fetchWeiboHotSearch, bind.
  destruct (clientDo_sent {| Timeout := 0 |} (hotSearchRequest ctx) wd)
    as (answer & t & Hdo & Ht).
  rewrite Hdo. intros H. exists answer, t.
  destruct answer as [resp|e'].
  - destruct (negb (StatusCode resp =? StatusOK)) eqn:Hs.
    + unfold ret in H. injection H as <- <-. auto.
    + destruct (Body resp) as [body|e'] eqn:Hb.
      * destruct (unmarshal body) as [payload|e'] eqn:Hu.
        -- destruct (negb (OK payload =? 1)) eqn:Hok.
           ++ unfold ret in H. injection H as <- <-.
              apply negb_true_iff, Z.eqb_neq in Hok. auto.
           ++ cbv zeta in H. unfold ret in H. injection H as <- <-.
              repeat split; auto. exists resp, body, payload.
              apply negb_false_iff in Hs, Hok. apply Z.eqb_eq in Hs, Hok.
              repeat split; auto.
              rewrite filter_loop, guarded_slice, url_loop. reflexivity.
        -- unfold ret in H. injection H as <- <-. auto.
      * unfold ret in H. injection H as <- <-. auto.
  - unfold ret in H. injection H as <- <-. auto.
Qed.

(** The entries of a successful fetch, by what they satisfy. *)
Lemma fetch_returns_only_selected_aux
    (ctx : context) (w : weiboWidget) (wd wd' : world)
    (items : list hotSearchWithURL) :
  fetchWeiboHotSearch unmarshal ctx w wd = Some (Ok items, wd') ->
  Forall (fun h =>
            Word (item h) <> ""
            /\ (Category w = "" \/ LabelName (item h) = Category w)
            /\ itemURL h
               = "https://s.weibo.com/weibo?q=" ++ QueryEscape (WordScheme (item h)))
         items
  /\ (0 < ShowCount w -> len items <= ShowCount w).
Proof.
  intros H. destruct (fetch_inv ctx w wd wd' _ H)
    as (answer & t & Hdo & _ & _ & resp & body & payload & -> & Hs & Hb & Hu & Hok & ->).
  destruct (selectEntries_sound (Category w) (ShowCount w)
              (Realtime (Data payload)) (Hotgovs (Data payload))) as [Hall Hlen].
  split.
  - apply Forall_forall. intros h Hin. apply in_map_iff in Hin.
    destruct Hin as (it & <- & Hin). rewrite Forall_forall in Hall.
    destruct (Hall it Hin). simpl. auto.
  - intros Hpos. unfold len in *. rewrite length_map. auto.
Qed.

(** X4.  Whatever the payload, the entries a fetch returns all have a
    non-empty word, carry the configured category as their label when one
    is configured, and come with the search URL made of the fixed prefix
    and their escaped query text; there are at most [ShowCount] of them
    when that is positive.  Entries come back only from an answer with
    status 200 whose body decoded to a payload with status flag 1. *)
Theorem fetch_returns_only_selected
    (ctx : context) (w : weiboWidget) (wd wd' : world)
    (items : list hotSearchWithURL) :
  fetchWeiboHotSearch unmarshal ctx w wd = Some (Ok items, wd') ->
  Forall (fun h =>
            Word (item h) <> ""
            /\ (Category w = "" \/ LabelName (item h) = Category w)
            /\ itemURL h
               = "https://s.weibo.com/weibo?q=" ++ QueryEscape (WordScheme (item h)))
         items
  /\ (0 < ShowCount w -> len items <= ShowCount w)
  /\ exists resp body payload,
       clientDo (Some {| Timeout := 0 |}) (hotSearchRequest ctx) wd = Some (Ok resp, wd')
       /\ StatusCode resp = 200
       /\ Body resp = BodyBytes body
       /\ unmarshal body = Ok payload
       /\ OK payload = 1.
Proof.
  intros H. destruct (fetch_returns_only_selected_aux ctx w wd wd' items H) as [Hall Hlen].
  split; [exact Hall|]. split; [exact Hlen|].
  destruct (fetch_inv ctx w wd wd' _ H)
    as (answer & t & Hdo & _ & _ & resp & body & payload & -> & Hs & Hb & Hu & Hok & _).
  exists resp, body, payload. auto.
Qed.


(** An answer whose status is not 200 gives the status error even if
    its body is a well-formed payload, and a payload whose status flag is
    not 1 gives the flag error even if it carries entries: in neither case
    does the fetch return entries. *)
Theorem fetch_rejects_bad_status :
  (forall ctx w wd wd' resp,
     clientDo (Some {| Timeout := 0 |}) (hotSearchRequest ctx) wd = Some (Ok resp, wd') ->
     StatusCode resp <> 200 ->
     fetchWeiboHotSearch unmarshal ctx w wd
     = Some (Err ("API请求失败，状态码: " ++ formatInt (StatusCode resp)), wd'))
  /\ (forall ctx w wd wd' resp body payload,
        clientDo (Some {| Timeout := 0 |}) (hotSearchRequest ctx) wd = Some (Ok resp, wd') ->
        StatusCode resp = 200 ->
        Body resp = BodyBytes body ->
        unmarshal body = Ok payload ->
        OK payload <> 1 ->
        fetchWeiboHotSearch unmarshal ctx w wd
        = Some (Err ("API返回错误状态: ok=" ++ formatInt (OK payload)), wd')).
Proof.
  split.
  - intros ctx w wd wd' resp Hdo Hs. unfold fetchWeiboHotSearch, bind. rewrite Hdo.
    apply Z.eqb_neq in Hs. unfold StatusOK. now rewrite Hs.
  - intros ctx w wd wd' resp body payload Hdo Hs Hb Hu Hok.
    unfold fetchWeiboHotSearch, bind. rewrite Hdo.
    unfold StatusOK. rewrite Hs, Z.eqb_refl. cbn [negb]. rewrite Hb, Hu.
    apply Z.eqb_neq in Hok. now rewrite Hok.
Qed.

(** X6.  When the fetch succeeds [update] stores the entries and the
    current time and nothing else: the configuration and the whole
    [widgetBase] stay as they were, so an error stored by an earlier
    failure is still there and no request goes to the scheduler. *)
Theorem update_success_stores_items
    (ctx : context) (w : weiboWidget) (wd wd1 : world)
    (items : list hotSearchWithURL) :
  fetchWeiboHotSearch unmarshal ctx w wd = Some (Ok items, wd1) ->
  exists w',
    update unmarshal ctx w wd = Some (w', wd1)
    /\ HotSearches w' = items
    /\ LastUpdated w' = now wd1
    /\ base w' = base w
    /\ ShowCount w' = ShowCount w /\ Limit w' = Limit w
    /\ Category w' = Category w /\ RefreshInterval w' = RefreshInterval w.
Proof.
  intros H. unfold update, bind. rewrite H. unfold timeNow, ret.
  eexists. split; [reflexivity|]. repeat split.
Qed.

(** What [update] leaves alone, and where new items come from. *)
Lemma update_frame (ctx : context) (w w' : weiboWidget) (wd wd' : world) :
  update unmarshal ctx w wd = Some (w', wd') ->
  ShowCount w' = ShowCount w /\ Limit w' = Limit w /\ Category w' = Category w
  /\ RefreshInterval w' = RefreshInterval w
  /\ Title (base w') = Title (base w)
  /\ cacheDuration (base w') = cacheDuration (base w)
  /\ (HotSearches w' = HotSearches w
      \/ fetchWeiboHotSearch unmarshal ctx w wd = Some (Ok (HotSearches w'), wd')).
Proof.
  unfold update, bind.
  destruct (fetchWeiboHotSearch unmarshal ctx w wd) as [[r wd1]|]; [|discriminate].
  destruct r as [items|e]; unfold timeNow, ret; intros H; injection H as <- <-;
    repeat split; auto.
Qed.

(** X7.  Once initialized, whatever [update] and [Render] calls follow, the
    widget keeps the display count [initialize] settled (between 1 and 50),
    its category, its refresh interval, its title and its cache lifetime;
    and if it started without items, it never holds more items than the
    display count, and every item it holds has a non-empty word, the
    configured category when there is one, and its search URL. *)
Theorem operated_keeps_configuration (w0 w : weiboWidget) :
  operated unmarshal execute w0 w ->
  (1 <= ShowCount w <= 50
   /\ ShowCount w = ShowCount (fst (initialize w0))
   /\ Category w = Category w0
   /\ RefreshInterval w = RefreshInterval (fst (initialize w0))
   /\ Title (base w) = "Weibo HotSearch"
   /\ cacheDuration (base w) = durationMul (RefreshInterval w) Minute)
  /\ (HotSearches w0 = [] ->
      len (HotSearches w) <= ShowCount w
      /\ Forall (fun h =>
                   Word (item h) <> ""
                   /\ (Category w0 = "" \/ LabelName (item h) = Category w0)
                   /\ itemURL h
                      = "https://s.weibo.com/weibo?q="
                          ++ QueryEscape (WordScheme (item h)))
                (HotSearches w)).
Proof.
  intros Hop.
  pose proof (initialize_ShowCount w0) as (_ & Hrange & _).
  assert (Hinv :
    (ShowCount w = ShowCount (fst (initialize w0))
     /\ Category w = Category w0
     /\ RefreshInterval w = RefreshInterval (fst (initialize w0))
     /\ Title (base w) = "Weibo HotSearch"
     /\ cacheDuration (base w) = durationMul (RefreshInterval w) Minute)
    /\ (HotSearches w0 = [] ->
        len (HotSearches w) <= ShowCount w
        /\ Forall (fun h =>
                     Word (item h) <> ""
                     /\ (Category w0 = "" \/ LabelName (item h) = Category w0)
                     /\ itemURL h
                        = "https://s.weibo.com/weibo?q="
                            ++ QueryEscape (WordScheme (item h)))
                  (HotSearches w))).
  { induction Hop as [|ctx wd wd' w w' _ IH Hup|w _ IH].
    - split; [rewrite initialize_eq; repeat split|].
      intros Hempty. rewrite initialize_eq in *. cbn [fst HotSearches ShowCount] in *.
      rewrite Hempty. split; [unfold len; simpl; lia | constructor].
    - destruct IH as [(Hcount & Hcat & Hri & Htitle & Hcache) IH].
      destruct (update_frame ctx w w' wd wd' Hup)
        as (Hsc & _ & Hc & Hr & Ht & Hcd & Hitems).
      split; [rewrite Hsc, Hc, Hr, Ht, Hcd; auto|].
      intros Hempty. specialize (IH Hempty). rewrite Hsc.
      destruct Hitems as [->|Hfetch]; [exact IH|].
      destruct (fetch_returns_only_selected_aux ctx w wd wd' _ Hfetch) as [Hall Hlen].
      rewrite Hcat in Hall. split; [apply Hlen; lia | exact Hall].
    - exact IH. }
  destruct Hinv as [(Hcount & Hcfg) Hitems].
  split; [|exact Hitems]. split; [lia|]. auto.
Qed.

End HotSearchCoverage.

(* ===================================================================== *)
(** * Further properties of the random-fact widget *)
(* ===================================================================== *)

Section RandomFactCoverage.
Import GoRuntime Host RandomFact.

Variable decodeFact : string -> result rawFactResponse.
Variable decodeAI : string -> result aiResponse.
Variable urlParseError : string -> option error.
Variable systemPrompt : string.
Variable execute : template -> option randomFactWidget -> HTML.

Local Abbreviation fetchRawFact := (RandomFact.fetchRawFact decodeFact).
Local Abbreviation processWithAI := (RandomFact.processWithAI decodeAI urlParseError systemPrompt).
Local Abbreviation update := (RandomFact.update decodeFact decodeAI urlParseError systemPrompt).
Local Abbreviation Render := (RandomFact.Render execute).
Local Abbreviation serves := (RandomFact.serves decodeFact decodeAI urlParseError systemPrompt execute).
Local Abbreviation aiRequest := (RandomFact.aiRequest systemPrompt).


(** What a rewrite call that returned went through. *)
Lemma processWithAI_inv (w : randomFactWidget) (text : string) (wd wd' : world)
    (r : result string) :
  processWithAI w text wd = Some (r, wd') ->
  (wd' = wd
   /\ ((APIKey w = "" /\ r = Err "API key not configured")
       \/ (APIKey w <> "" /\ exists e, urlParseError (APIURL w) = Some e /\ r = Err e)))
  \/ (APIKey w <> "" /\ urlParseError (APIURL w) = None
      /\ exists answer t,
           clientDo (client w) (aiRequest w text) wd = Some (answer, wd')
           /\ wd' = sent (aiRequest w text) t wd /\ now wd <= t
           /\ match r with
              | Ok rewritten =>
                  exists resp body a choice rest,
                    answer = Ok resp /\ StatusCode resp = StatusOK
                    /\ Body resp = BodyBytes body /\ decodeAI body = Ok a
                    /\ aiErr a = None /\ Choices a = choice :: rest
                    /\ rewritten = MessageContent choice
              | Err _ => True
              end).
Proof.
  unfold RandomFact.processWithAI.
  destruct (String.eqb_spec (APIKey w) "") as [Hk|Hk].
  { unfold ret. intros H. injection H as <- <-. left. auto. }
  destruct (urlParseError (APIURL w)) as [e|] eqn:Hu.
  { unfold ret. intros H. injection H as <- <-. left. split; [reflexivity|]. right. eauto. }
  unfold bind. intros H. right. split; [exact Hk|]. split; [reflexivity|].
  destruct (client w) as [c|]; [|discriminate].
  destruct (clientDo_sent c (aiRequest w text) wd) as (answer & t & Hdo & Ht).
  rewrite Hdo in H. exists answer, t.
  destruct answer as [resp|e]; [|unfold ret in H; injection H as <- <-; auto].
  destruct (negb (StatusCode resp =? StatusOK)) eqn:Hs;
    [unfold ret in H; injection H as <- <-; auto|].
  destruct (Body resp) as [body|e] eqn:Hb;
    [|unfold ret in H; injection H as <- <-; auto].
  destruct (decodeAI body) as [a|e] eqn:Hd;
    [|unfold ret in H; injection H as <- <-; auto].
  destruct (aiErr a) as [e|] eqn:He; [unfold ret in H; injection H as <- <-; auto|].
  destruct (Choices a) as [|choice rest] eqn:Hc;
    unfold ret in H; injection H as <- <-; auto.
  repeat split; auto. exists resp, body, a, choice, rest.
  apply negb_false_iff, Z.eqb_eq in Hs. auto 10.
Qed.

(** X8.  [processWithAI] returns a text only from an answer with status
    200 whose body decoded to a response without error object and with at
    least one choice, and the text is the first choice's content as it is.
    An error object in the response makes the call fail whatever choices
    come with it.  Without API key, or with an endpoint URL that does not
    parse, the call fails before anything is sent. *)
Theorem processWithAI_contract :
  (forall w text wd wd' rewritten,
     processWithAI w text wd = Some (Ok rewritten, wd') ->
     APIKey w <> ""
     /\ exists resp body a choice rest,
          clientDo (client w) (aiRequest w text) wd = Some (Ok resp, wd')
          /\ StatusCode resp = 200 /\ Body resp = BodyBytes body
          /\ decodeAI body = Ok a /\ aiErr a = None
          /\ Choices a = choice :: rest /\ rewritten = MessageContent choice)
  /\ (forall w text wd wd' resp body a e,
        APIKey w <> "" -> urlParseError (APIURL w) = None ->
        clientDo (client w) (aiRequest w text) wd = Some (Ok resp, wd') ->
        StatusCode resp = 200 -> Body resp = BodyBytes body ->
        decodeAI body = Ok a -> aiErr a = Some e ->
        processWithAI w text wd = Some (Err ("AI API error: " ++ errMessage e), wd'))
  /\ (forall w text wd,
        APIKey w = "" \/ urlParseError (APIURL w) <> None ->
        exists e, processWithAI w text wd = Some (Err e, wd)).
Proof.
  refine (conj _ (conj _ _)).
  - intros w text wd wd' rewritten H.
    destruct (processWithAI_inv w text wd wd' _ H)
      as [(_ & [(_ & E)|(_ & e & _ & E)])|(Hk & _ & answer & t & Hdo & _ & _ & Hok)];
      try discriminate.
    destruct Hok as (resp & body & a & choice & rest & -> & Hs & Hb & Hd & He & Hc & ->).
    split; [exact Hk|]. exists resp, body, a, choice, rest. auto 10.
  - intros w text wd wd' resp body a e Hk Hu Hdo Hs Hb Hd He.
    unfold RandomFact.processWithAI.
    destruct (String.eqb_spec (APIKey w) ""); [contradiction|].
    rewrite Hu. unfold bind. rewrite Hdo.
    unfold StatusOK. rewrite Hs, Z.eqb_refl. cbn [negb]. now rewrite Hb, Hd, He.
  - intros w text wd H. unfold RandomFact.processWithAI.
    destruct (String.eqb_spec (APIKey w) ""); [unfold ret; eauto|].
    destruct H as [H|H]; [contradiction|].
    destruct (urlParseError (APIURL w)); [unfold ret; eauto | contradiction].
Qed.

(** One [update] outside the cache window, in full. *)
Lemma update_stale_inv (ctx : context) (w w' : randomFactWidget) (wd wd' : world) :
  cacheFresh w wd = false ->
  update ctx w wd = Some (w', wd') ->
  exists r wd1,
    fetchRawFact w wd = Some (r, wd1)
    /\ match r with
       | Err e =>
           w' = setBase (scheduleEarlyUpdate (withError e (base w))) w
           /\ wd' = printed ("Error fetching raw fact: " ++ e ++ nl) wd1
       | Ok rawFact =>
           exists processedContent source,
             w' = setBase (scheduleNextUpdate (base w))
                    (setLastUpdate (now wd')
                       (setCachedData
                          (Some {| FactID := rfID rawFact; FactText := rfText rawFact;
                                   Content := processedContent; Source := source |}) w))
             /\ (hasAIConfig w = false ->
                 processedContent = rfText rawFact
                 /\ source = "uselessfacts.jsph.pl" /\ wd' = wd1)
             /\ (hasAIConfig w = true ->
                 source = extractModelName w
                 /\ exists p,
                      processWithAI w (rfText rawFact) wd1 = Some (p, wd')
                      /\ processedContent
                         = match p with
                           | Ok rewritten => rewritten
                           | Err _ => rfText rawFact
                           end)
       end.
Proof.
  intros Hstale Hup.
  destruct (RandomFact.fetchRawFact decodeFact w wd) as [[r wd1]|] eqn:Hfetch.
  - exists r, wd1. split; [reflexivity|]. destruct r as [rawFact|e].
    + destruct (update_stored decodeFact decodeAI urlParseError systemPrompt
                  ctx w wd wd1 rawFact Hstale Hfetch)
        as (pc & src & wd2 & Hup' & _ & _ & Hno & Hai).
      rewrite Hup' in Hup. injection Hup as <- <-. exists pc, src. auto.
    + rewrite (update_failed decodeFact decodeAI urlParseError systemPrompt
                 ctx w wd wd1 e Hstale Hfetch) in Hup.
      injection Hup as <- <-. auto.
  - rewrite (update_panics decodeFact decodeAI urlParseError systemPrompt
               ctx w wd Hstale Hfetch) in Hup. discriminate.
Qed.

(** X9.  Without a complete AI configuration an [update] that fetched a
    fact caches it with the raw text as content and the trivia host as
    source, at the time the fetch returned, asks for the next regular
    update, and sends nothing but the one trivia request. *)
Theorem update_without_ai_config
    (ctx : context) (w : randomFactWidget) (wd wd1 : world) (rawFact : rawFactResponse) :
  cacheFresh w wd = false ->
  fetchRawFact w wd = Some (Ok rawFact, wd1) ->
  hasAIConfig w = false ->
  exists w',
    update ctx w wd = Some (w', wd1)
    /\ CachedData w' = Some (rawRecord rawFact "uselessfacts.jsph.pl")
    /\ lastUpdate w' = now wd1
    /\ requests wd1 = (requests wd ++ [rawFactRequest])%list
    /\ Error (base w') = Error (base w)
    /\ scheduled (base w') = (scheduled (base w) ++ [NextUpdate])%list.
Proof.
  intros Hstale Hfetch Hno.
  destruct (update_stored decodeFact decodeAI urlParseError systemPrompt
              ctx w wd wd1 rawFact Hstale Hfetch)
    as (pc & src & wd2 & Hup & _ & _ & Hraw & _).
  destruct (Hraw Hno) as (-> & -> & ->).
  destruct (fetchRawFact_inv decodeFact w wd wd1 _ Hfetch) as (c & t & _ & -> & _).
  eexists. split; [exact Hup|]. repeat split.
Qed.

(** X10.  With AI rewriting configured, when the rewrite call returns a
    text [update] caches that text as content, word for word, next to the
    untouched raw text and the provider's identifier, with the model name
    as source. *)
Theorem update_with_rewritten_text
    (ctx : context) (w : randomFactWidget) (wd wd1 wd2 : world)
    (rawFact : rawFactResponse) (rewritten : string) :
  cacheFresh w wd = false ->
  fetchRawFact w wd = Some (Ok rawFact, wd1) ->
  hasAIConfig w = true ->
  processWithAI w (rfText rawFact) wd1 = Some (Ok rewritten, wd2) ->
  exists w',
    update ctx w wd = Some (w', wd2)
    /\ CachedData w'
       = Some {| FactID := rfID rawFact; FactText := rfText rawFact;
                 Content := rewritten; Source := extractModelName w |}
    /\ lastUpdate w' = now wd2
    /\ Error (base w') = Error (base w)
    /\ scheduled (base w') = (scheduled (base w) ++ [NextUpdate])%list.
Proof.
  intros Hstale Hfetch Hai Hrewrite.
  destruct (update_stored decodeFact decodeAI urlParseError systemPrompt
              ctx w wd wd1 rawFact Hstale Hfetch)
    as (pc & src & wd2' & Hup & _ & _ & _ & Hcfg).
  destruct (Hcfg Hai) as (-> & p & Hp & ->).
  rewrite Hrewrite in Hp. injection Hp as <- <-.
  eexists. split; [exact Hup|]. repeat split.
Qed.

(** X11.  An [update] that returns has sent nothing (the cache was fresh),
    or the trivia request alone, or the trivia request followed by one
    rewrite request; the rewrite request is sent only with a complete AI
    configuration.  The trivia request has no header at all, and the
    rewrite request is a POST to the configured endpoint that carries the
    key as bearer token, the model and the fact's text as user message. *)
Theorem update_sends_at_most_two
    (ctx : context) (w w' : randomFactWidget) (wd wd' : world) :
  update ctx w wd = Some (w', wd') ->
  ((cacheFresh w wd = true /\ requests wd' = requests wd)
   \/ requests wd' = (requests wd ++ [rawFactRequest])%list
   \/ (hasAIConfig w = true
       /\ exists rawFact,
            requests wd' = (requests wd ++ [rawFactRequest;
                                            aiRequest w (rfText rawFact)])%list))
  /\ Header rawFactRequest = []
  /\ URL rawFactRequest = factAPIURL
  /\ forall text,
       Method (aiRequest w text) = "POST"
       /\ URL (aiRequest w text) = APIURL w
       /\ Header (aiRequest w text)
          = [("Authorization", "Bearer " ++ APIKey w);
             ("Content-Type", "application/json")]
       /\ option_map model (reqBody (aiRequest w text)) = Some (Model w)
       /\ option_map messages (reqBody (aiRequest w text))
          = Some [ {| role := "system"; content := systemPrompt |};
                   {| role := "user"; content := text |} ].
Proof.
  intros Hup. split; [|repeat split].
  destruct (cacheFresh w wd) eqn:Hfresh.
  { rewrite (update_fresh decodeFact decodeAI urlParseError systemPrompt
               ctx w wd Hfresh) in Hup.
    injection Hup as <- <-. auto. }
  destruct (update_stale_inv ctx w w' wd wd' Hfresh Hup) as (r & wd1 & Hfetch & Hr).
  destruct (fetchRawFact_inv decodeFact w wd wd1 _ Hfetch) as (c & t & _ & -> & _).
  destruct r as [rawFact|e].
  - destruct Hr as (pc & src & _ & Hno & Hai).
    destruct (hasAIConfig w) eqn:Hcfg.
    + destruct (Hai eq_refl) as (_ & p & Hp & _).
      destruct (processWithAI_inv w (rfText rawFact) _ wd' p Hp)
        as [(-> & _)|(_ & _ & answer & t' & _ & -> & _)].
      * right. left. reflexivity.
      * right. right. split; [reflexivity|]. exists rawFact. simpl.
        now rewrite <- app_assoc.
    + destruct (Hno eq_refl) as (_ & _ & ->). right. left. reflexivity.
  - destruct Hr as [_ ->]. right. left. reflexivity.
Qed.

(** ** What the widget keeps over its life *)

(** What [update] leaves alone. *)
Lemma fact_update_frame (ctx : context) (w w' : randomFactWidget) (wd wd' : world) :
  update ctx w wd = Some (w', wd') ->
  client w' = client w
  /\ APIKey w' = APIKey w /\ Model w' = Model w /\ APIURL w' = APIURL w
  /\ CustomCacheDuration (base w') = CustomCacheDuration (base w)
  /\ (CachedData w <> None -> CachedData w' <> None).
Proof.
  intros Hup. destruct (cacheFresh w wd) eqn:Hfresh.
  { rewrite (update_fresh decodeFact decodeAI urlParseError systemPrompt
               ctx w wd Hfresh) in Hup.
    injection Hup as <- <-. auto 10. }
  destruct (update_stale_inv ctx w w' wd wd' Hfresh Hup) as (r & wd1 & _ & Hr).
  destruct r as [rawFact|e].
  - destruct Hr as (pc & src & -> & _). repeat split. discriminate.
  - destruct Hr as [-> _]. repeat split. auto.
Qed.

(** What [Render] leaves alone. *)
Lemma fact_Render_frame (w w' : randomFactWidget) (html : HTML) (wd wd' : world) :
  Render w wd = Some ((w', html), wd') ->
  client w' = client w
  /\ APIKey w' = APIKey w /\ Model w' = Model w /\ APIURL w' = APIURL w
  /\ CustomCacheDuration (base w') = CustomCacheDuration (base w)
  /\ CachedData w' = CachedData w
  /\ lastUpdate w' = lastUpdate w
  /\ scheduled (base w') = scheduled (base w)
  /\ requests wd' = requests wd
  /\ now wd' = now wd.
Proof.
  unfold RandomFact.Render. destruct (CachedData w) eqn:Hd;
    unfold bind, Printf, ret; intros H; injection H as <- <- <-; simpl;
    repeat split; auto.
Qed.

Lemma serves_frame (w0 w : randomFactWidget) (wd0 wd : world) :
  serves w0 wd0 w wd ->
  client w = client w0
  /\ APIKey w = APIKey w0 /\ Model w = Model w0 /\ APIURL w = APIURL w0
  /\ CustomCacheDuration (base w) = CustomCacheDuration (base w0)
  /\ (CachedData w0 <> None -> CachedData w <> None).
Proof.
  induction 1 as [|ctx w w' wd wd' _ IH Hup|w w' html wd wd' _ IH Hr|w wd wd' _ IH Hle].
  - auto 10.
  - destruct IH as (<- & <- & <- & <- & <- & Hc).
    destruct (fact_update_frame ctx w w' wd wd' Hup) as (? & ? & ? & ? & ? & ?). auto 10.
  - destruct IH as (<- & <- & <- & <- & <- & Hc).
    destruct (fact_Render_frame w w' html wd wd' Hr) as (? & ? & ? & ? & ? & E & _).
    rewrite E. auto 10.
  - exact IH.
Qed.

(** X12.  Before [initialize] the widget has no HTTP client, and an
    [update] that gets past the cache check panics on it; after
    [initialize], whatever calls and waits follow, [update] always returns,
    and the API key, the model, the endpoint and the cache duration are
    those [initialize] left. *)
Theorem update_needs_initialize :
  (forall ctx w wd,
     client w = None -> cacheFresh w wd = false -> update ctx w wd = None)
  /\ (forall cfg wd w0 err wd0 w wd' ctx,
        initialize cfg wd = Some ((w0, err), wd0) ->
        serves w0 wd0 w wd' ->
        (exists w' wd'', update ctx w wd' = Some (w', wd''))
        /\ client w = Some {| Timeout := 30 * Second |}
        /\ APIKey w = APIKey cfg /\ Model w = Model cfg /\ APIURL w = APIURL cfg
        /\ CustomCacheDuration (base w) = CustomCacheDuration (base w0)
        /\ CustomCacheDuration (base w) <> 0).
Proof.
  split.
  - intros ctx w wd Hc Hstale.
    apply (update_panics decodeFact decodeAI urlParseError systemPrompt); [exact Hstale|].
    unfold RandomFact.fetchRawFact, bind, clientDo. now rewrite Hc.
  - intros cfg wd w0 err wd0 w wd' ctx Hinit Hserves.
    destruct (serves_frame w0 w wd0 wd' Hserves) as (Hc & Hk & Hm & Hu & Hd & _).
    assert (Hw0 : client w0 = Some {| Timeout := 30 * Second |}
                  /\ APIKey w0 = APIKey cfg /\ Model w0 = Model cfg
                  /\ APIURL w0 = APIURL cfg
                  /\ CustomCacheDuration (base w0) <> 0).
    { unfold initialize in Hinit. cbv zeta in Hinit. unfold bind in Hinit.
      match type of Hinit with
      | context [negb (hasAIConfig ?x)] => destruct (negb (hasAIConfig x))
      end; unfold Printf, ret in Hinit; injection Hinit as <- _ _; simpl;
        destruct (Z.eqb_spec (CustomCacheDuration (base cfg)) 0); simpl;
        repeat split; auto; discriminate. }
    destruct Hw0 as (Hc0 & Hk0 & Hm0 & Hu0 & Hd0).
    rewrite Hc0 in Hc. rewrite Hk, Hm, Hu, Hd, Hk0, Hm0, Hu0.
    split; [|auto 10].
    destruct (cacheFresh w wd') eqn:Hfresh.
    + rewrite (update_fresh decodeFact decodeAI urlParseError systemPrompt
                 ctx w wd' Hfresh). eauto.
    + destruct (update_stale_fetches decodeFact decodeAI urlParseError systemPrompt
                  ctx _ w wd' Hc Hfresh) as (w' & wd'' & Hup & _). eauto.
Qed.

(** X13.  A cached fact is never lost: once the widget holds a record, it
    holds one after every further [update], [Render] and wait, failed
    fetches included, and [Render] shows the full template with the content
    flag up, without a word on the output. *)
Theorem cached_fact_is_kept (w0 w : randomFactWidget) (wd0 wd : world) :
  serves w0 wd0 w wd ->
  CachedData w0 <> None ->
  CachedData w <> None
  /\ forall wd1, exists w',
       Render w wd1 = Some ((w', execute randomFactWidgetTemplate (Some w')), wd1)
       /\ ContentAvailable (base w') = true
       /\ CachedData w' = CachedData w.
Proof.
  intros Hserves Hcached.
  destruct (serves_frame w0 w wd0 wd Hserves) as (_ & _ & _ & _ & _ & Hkeep).
  specialize (Hkeep Hcached). split; [exact Hkeep|].
  intros wd1. destruct (CachedData w) as [d|] eqn:Hd; [|contradiction].
  rewrite (Render_with_record execute w wd1 d Hd).
  eexists. split; [reflexivity|]. split; [reflexivity|]. simpl. now rewrite Hd.
Qed.



(** ** [extractModelName], [Render], [initialize] *)

Lemma hasSlash_split (s : string) :
  hasSlash s = true ->
  exists pre suf, s = pre ++ String "/" suf /\ hasSlash suf = false.
Proof.
  induction s as [|c s IH]; simpl; [discriminate|].
  destruct (hasSlash s) eqn:Hs.
  - intros _. destruct (IH eq_refl) as (pre & suf & -> & Hsuf).
    exists (String c pre), suf. auto.
  - rewrite orb_false_r. intros Hc. apply Ascii.eqb_eq in Hc. subst c.
    exists "", s. auto.
Qed.

(** X15.  The model name [extractModelName] returns never contains a
    ['/']; it is a suffix of the model identifier unless that is empty; and
    for an identifier that ends in ['/'] it is the empty string, not
    "unknown". *)
Theorem extractModelName_has_no_slash (w : randomFactWidget) :
  hasSlash (extractModelName w) = false
  /\ (Model w <> "" -> exists pre, Model w = pre ++ extractModelName w)
  /\ (forall pre, Model w = pre ++ "/" -> extractModelName w = "").
Proof.
  destruct (extractModelName_suffix w) as (Hlast & Hnone & Hempty).
  refine (conj _ (conj _ _)).
  - destruct (String.eqb_spec (Model w) "") as [E|E]; [now rewrite (Hempty E)|].
    destruct (hasSlash (Model w)) eqn:Hs.
    + destruct (hasSlash_split _ Hs) as (pre & suf & Hm & Hsuf).
      now rewrite (Hlast pre suf Hm Hsuf).
    + rewrite (Hnone E eq_refl). exact Hs.
  - intros E. destruct (hasSlash (Model w)) eqn:Hs.
    + destruct (hasSlash_split _ Hs) as (pre & suf & Hm & Hsuf).
      rewrite (Hlast pre suf Hm Hsuf). exists (pre ++ "/"). rewrite Hm.
      clear. induction pre as [|c pre IH]; simpl; [reflexivity | now rewrite IH].
    + rewrite (Hnone E eq_refl). now exists "".
  - intros pre E. now apply (Hlast pre "").
Qed.

(** X16.  [Render] always returns, with or without [initialize]; it prints
    a line exactly when there is no cached record; it sends nothing, and
    leaves the cached record, its timestamp, the configuration and the
    scheduler's requests alone; and rendering again changes nothing more
    and gives the same fragment. *)
Theorem Render_is_idempotent (w : randomFactWidget) (wd : world) :
  exists w1 html wd1,
    Render w wd = Some ((w1, html), wd1)
    /\ (forall wd', exists wd'', Render w1 wd' = Some ((w1, html), wd''))
    /\ CachedData w1 = CachedData w /\ lastUpdate w1 = lastUpdate w
    /\ client w1 = client w /\ APIKey w1 = APIKey w
    /\ Model w1 = Model w /\ APIURL w1 = APIURL w
    /\ scheduled (base w1) = scheduled (base w)
    /\ requests wd1 = requests wd /\ now wd1 = now wd
    /\ stdout wd1
       = match CachedData w with
         | Some _ => stdout wd
         | None => (stdout wd ++ [("No cached data available" ++ nl)%string])%list
         end.
Proof.
  destruct (CachedData w) as [d|] eqn:Hd.
  - rewrite (Render_with_record execute w wd d Hd).
    do 3 eexists. split; [reflexivity|]. split; [|simpl; repeat split; auto].
    intros wd'. eexists.
    rewrite (Render_with_record execute _ wd' d); [reflexivity | exact Hd].
  - rewrite (Render_without_record execute w wd Hd).
    do 3 eexists. split; [reflexivity|]. split; [|simpl; repeat split; auto].
    intros wd'. eexists.
    rewrite (Render_without_record execute _ wd'); [reflexivity | exact Hd].
Qed.

(** [initialize], in one piece. *)
Lemma fact_initialize_eq (cfg : randomFactWidget) (wd : world) :
  let d := if CustomCacheDuration (base cfg) =? 0 then defaultFactCacheDuration
           else CustomCacheDuration (base cfg) in
  initialize cfg wd
  = Some (({| base := {| Title := "Random Fact";
                         CustomCacheDuration := d;
                         ContentAvailable := ContentAvailable (base cfg);
                         Error := Error (base cfg);
                         cacheDuration := d;
                         scheduled := scheduled (base cfg) |};
              APIKey := APIKey cfg; Model := Model cfg; APIURL := APIURL cfg;
              client := Some {| Timeout := 30 * Second |};
              CachedData := CachedData cfg; lastUpdate := lastUpdate cfg |}, None),
          if hasAIConfig cfg then wd
          else printed ("AI API not configured, will use raw facts only" ++ nl) wd).
Proof.
  destruct cfg as [[title ccd ca er cd sch] key mdl url cl data lu].
  unfold initialize, hasAIConfig, bind. cbn.
  destruct (ccd =? 0); cbn;
    destruct (key =? "")%string, (mdl =? "")%string, (url =? "")%string; reflexivity.
Qed.

Lemma hasAIConfig_complete (w : randomFactWidget) :
  (hasAIConfig w = true <-> APIKey w <> "" /\ Model w <> "" /\ APIURL w <> "")
  /\ (hasAIConfig w = false <-> APIKey w = "" \/ Model w = "" \/ APIURL w = "").
Proof.
  unfold hasAIConfig.
  destruct (String.eqb_spec (APIKey w) ""), (String.eqb_spec (Model w) ""),
    (String.eqb_spec (APIURL w) ""); cbn; intuition congruence.
Qed.

(** X17.  [initialize] sends nothing and keeps the configuration, the
    cache and its timestamp; the cache duration it leaves is never zero and
    is the lifetime handed to the host; the notice about raw facts is
    printed exactly when the key, the model or the endpoint is empty; and
    initializing again leaves the widget as it is. *)
Theorem initialize_settles_widget (cfg : randomFactWidget) (wd : world) :
  exists w0 wd0,
    initialize cfg wd = Some ((w0, None), wd0)
    /\ CustomCacheDuration (base w0) <> 0
    /\ cacheDuration (base w0) = CustomCacheDuration (base w0)
    /\ Title (base w0) = "Random Fact"
    /\ APIKey w0 = APIKey cfg /\ Model w0 = Model cfg /\ APIURL w0 = APIURL cfg
    /\ CachedData w0 = CachedData cfg /\ lastUpdate w0 = lastUpdate cfg
    /\ requests wd0 = requests wd /\ now wd0 = now wd
    /\ (APIKey cfg <> "" /\ Model cfg <> "" /\ APIURL cfg <> "" -> stdout wd0 = stdout wd)
    /\ (APIKey cfg = "" \/ Model cfg = "" \/ APIURL cfg = "" ->
        stdout wd0
        = (stdout wd
           ++ [("AI API not configured, will use raw facts only" ++ nl)%string])%list)
    /\ (forall wd1, exists wd2, initialize w0 wd1 = Some ((w0, None), wd2)).
Proof.
  rewrite fact_initialize_eq. cbv zeta.
  set (d := if CustomCacheDuration (base cfg) =? 0 then defaultFactCacheDuration
            else CustomCacheDuration (base cfg)).
  assert (Hd : d <> 0).
  { subst d. destruct (Z.eqb_spec (CustomCacheDuration (base cfg)) 0);
      [discriminate | assumption]. }
  destruct (hasAIConfig_complete cfg) as [Hyes Hno].
  do 2 eexists. split; [reflexivity|].
  cbn [base CustomCacheDuration cacheDuration Title APIKey Model APIURL CachedData
       lastUpdate].
  repeat match goal with |- _ /\ _ => split end; try reflexivity; try exact Hd.
  - destruct (hasAIConfig cfg); reflexivity.
  - destruct (hasAIConfig cfg); reflexivity.
  - intros H. apply Hyes in H. now rewrite H.
  - intros H. apply Hno in H. now rewrite H.
  - intros wd1. rewrite fact_initialize_eq. cbv zeta.
    cbn [base CustomCacheDuration ContentAvailable Error scheduled APIKey Model APIURL
         CachedData lastUpdate].
    apply Z.eqb_neq in Hd. rewrite Hd. eexists. reflexivity.
Qed.

End RandomFactCoverage.

(* ===================================================================== *)
(** * Further properties of formatting and of the search URL *)
(* ===================================================================== *)

Section FormattingCoverage.
Import GoRuntime Host Weibo.

Lemma near_million_check :
  forallb (fun k => (FormattedHotValue (entry "" "" "" (999950 + Z.of_nat k))
                     =? "1000.0K")%string)
          (seq 0 50) = true.
Proof. vm_compute. reflexivity. Qed.

(** X18.  The fifty values just below one million are shown as "1000.0K":
    they are under the threshold of the "M" form, and one decimal of their
    thousands rounds up to 1000.0. *)
Theorem FormattedHotValue_just_below_a_million (it : weiboHotSearchItem) :
  999950 <= Num it < 1000000 -> FormattedHotValue it = "1000.0K".
Proof.
  intros H.
  assert (E : FormattedHotValue it = FormattedHotValue (entry "" "" "" (Num it)))
    by reflexivity.
  rewrite E.
  pose proof (proj1 (forallb_forall _ _) near_million_check
                (Z.to_nat (Num it - 999950))) as Hk.
  cbv beta in Hk.
  replace (999950 + Z.of_nat (Z.to_nat (Num it - 999950))) with (Num it) in Hk by lia.
  apply String.eqb_eq, Hk, in_seq. lia.
Qed.

(** ** The search URL *)

Lemma upperhex_inj (a b : nat) :
  (a < 16)%nat -> (b < 16)%nat -> upperhex a = upperhex b -> a = b.
Proof.
  intros Ha Hb.
  do 16 (destruct a as [|a]; [do 16 (destruct b as [|b];
           [first [reflexivity | discriminate]|]); lia|]).
  lia.
Qed.

Lemma nibbles_inj (c1 c2 : ascii) :
  upperhex (nat_of_ascii c1 / 16) = upperhex (nat_of_ascii c2 / 16) ->
  upperhex (nat_of_ascii c1 mod 16) = upperhex (nat_of_ascii c2 mod 16) ->
  c1 = c2.
Proof.
  intros Hhi Hlo.
  pose proof (nat_ascii_bounded c1) as B1. pose proof (nat_ascii_bounded c2) as B2.
  apply upperhex_inj in Hhi;
    [|apply Nat.Div0.div_lt_upper_bound; lia | apply Nat.Div0.div_lt_upper_bound; lia].
  apply upperhex_inj in Hlo; [|apply Nat.mod_upper_bound; lia | apply Nat.mod_upper_bound; lia].
  rewrite <- (ascii_nat_embedding c1), <- (ascii_nat_embedding c2). f_equal.
  rewrite (Nat.div_mod_eq (nat_of_ascii c1) 16), (Nat.div_mod_eq (nat_of_ascii c2) 16).
  now rewrite Hhi, Hlo.
Qed.

Lemma upperhex_safe (n : nat) : isQuerySafe (upperhex n) = true.
Proof.
  do 16 (destruct n as [|n]; [reflexivity|]). reflexivity.
Qed.

Lemma QueryEscape_safe (s : string) : allChars isQuerySafe (QueryEscape s) = true.
Proof.
  induction s as [|c s IH]; simpl; [reflexivity|].
  destruct (isUnreserved c) eqn:Hu.
  - simpl. unfold isQuerySafe at 1. now rewrite Hu, IH.
  - destruct (Ascii.eqb c " "); simpl; rewrite ?upperhex_safe, IH; reflexivity.
Qed.

Lemma QueryEscape_inj (s1 s2 : string) :
  QueryEscape s1 = QueryEscape s2 -> s1 = s2.
Proof.
  revert s2. induction s1 as [|c1 s1 IH]; intros [|c2 s2]; simpl.
  - reflexivity.
  - destruct (isUnreserved c2); [discriminate|].
    destruct (Ascii.eqb c2 " "); discriminate.
  - destruct (isUnreserved c1); [discriminate|].
    destruct (Ascii.eqb c1 " "); discriminate.
  - destruct (isUnreserved c1) eqn:U1; destruct (isUnreserved c2) eqn:U2.
    + intros H. injection H as -> H. f_equal. now apply IH.
    + destruct (Ascii.eqb c2 " "); intros H; injection H as -> _; discriminate.
    + destruct (Ascii.eqb c1 " "); intros H; injection H as <- _; discriminate.
    + destruct (Ascii.eqb_spec c1 " ") as [->|N1];
        destruct (Ascii.eqb_spec c2 " ") as [->|N2]; intros H.
      * injection H as H. f_equal. now apply IH.
      * discriminate.
      * discriminate.
      * injection H as Hhi Hlo H. f_equal; [now apply nibbles_inj | now apply IH].
Qed.

Lemma append_inj_l (p x y : string) : p ++ x = p ++ y -> x = y.
Proof.
  induction p as [|c p IH]; simpl; [auto|]. intros H. injection H as H. auto.
Qed.

(** X19.  The search URL of an entry is the fixed search-page prefix
    followed by characters that are letters, digits or one of [- _ . ~ + %]
    only (no space, no ['&'], no ['#']); and two entries have the same
    search URL exactly when they have the same query text. *)
Theorem search_URL_is_faithful (a b : weiboHotSearchItem) :
  (exists query,
     itemURL (withSearchURL a) = "https://s.weibo.com/weibo?q=" ++ query
     /\ allChars isQuerySafe query = true)
  /\ (itemURL (withSearchURL a) = itemURL (withSearchURL b)
      <-> WordScheme a = WordScheme b)
  /\ urlStep [] a = [withSearchURL a].
Proof.
  split; [|split].
  - exists (QueryEscape (WordScheme a)). split; [reflexivity | apply QueryEscape_safe].
  - unfold withSearchURL. cbn [itemURL]. split.
    + intros H. apply append_inj_l in H. now apply QueryEscape_inj.
    + now intros ->.
  - reflexivity.
Qed.

End FormattingCoverage.

(* ===================================================================== *)
(** * More concrete runs *)
(* ===================================================================== *)

Section CoverageRuns.
Import GoRuntime Host.

(** X4 at work: of three entries, one with an empty word and one of
    another category, the category "热" keeps one. *)
Lemma fetch_returns_only_selected_witness :
  let kept := Weibo.withSearchURL (Weibo.entry "a" "热" "#a#" 1500) in
  Weibo.fetchWeiboHotSearch
    (fun _ => Ok (Weibo.payloadOf [Weibo.entry "" "热" "x" 7; Weibo.entry "a" "热" "#a#" 1500]
                                  [Weibo.entry "c" "社" "c" 999]))
    Background (Weibo.configured 10 0 "热" 0) (worldAt 1000 (answering 200 "{}" 5))
  = Some (Ok [kept], sent (Weibo.hotSearchRequest Background) 1005
                       (worldAt 1000 (answering 200 "{}" 5)))
  /\ Weibo.Word (Weibo.item kept) <> ""
  /\ Weibo.len [kept] <= 10.
Proof.
  intros kept.
  assert (Hrun : Weibo.fetchWeiboHotSearch
    (fun _ => Ok (Weibo.payloadOf [Weibo.entry "" "热" "x" 7; Weibo.entry "a" "热" "#a#" 1500]
                                  [Weibo.entry "c" "社" "c" 999]))
    Background (Weibo.configured 10 0 "热" 0) (worldAt 1000 (answering 200 "{}" 5))
  = Some (Ok [kept], sent (Weibo.hotSearchRequest Background) 1005
                       (worldAt 1000 (answering 200 "{}" 5)))) by reflexivity.
  destruct (fetch_returns_only_selected _ _ _ _ _ _ Hrun) as (Hall & Hlen & _).
  split; [exact Hrun|]. split.
  - inversion Hall as [|h l (Hword & _) _]. exact Hword.
  - apply Hlen. reflexivity.
Defined.

(** X6 at work: a widget that holds an error from an earlier failure
    fetches two entries; it now holds the entries and, still, the error. *)
Lemma update_success_stores_items_witness :
  exists w',
    Weibo.update
      (fun _ => Ok (Weibo.payloadOf [Weibo.entry "a" "" "a" 1] [Weibo.entry "b" "" "b" 2]))
      Background
      (Weibo.setBase (withError "earlier failure" (Weibo.base (Weibo.configured 10 0 "" 30)))
         (Weibo.configured 10 0 "" 30))
      (worldAt 1000 (answering 200 "{}" 5))
    = Some (w', sent (Weibo.hotSearchRequest Background) 1005
                  (worldAt 1000 (answering 200 "{}" 5)))
    /\ Weibo.len (Weibo.HotSearches w') = 2
    /\ Weibo.LastUpdated w' = 1005
    /\ Error (Weibo.base w') = Some "earlier failure".
Proof.
  destruct (update_success_stores_items
              (fun _ => Ok (Weibo.payloadOf [Weibo.entry "a" "" "a" 1]
                                            [Weibo.entry "b" "" "b" 2]))
              Background
              (Weibo.setBase (withError "earlier failure"
                                (Weibo.base (Weibo.configured 10 0 "" 30)))
                 (Weibo.configured 10 0 "" 30))
              (worldAt 1000 (answering 200 "{}" 5))
              (sent (Weibo.hotSearchRequest Background) 1005
                 (worldAt 1000 (answering 200 "{}" 5)))
              [Weibo.withSearchURL (Weibo.entry "a" "" "a" 1);
               Weibo.withSearchURL (Weibo.entry "b" "" "b" 2)]
              eq_refl)
    as (w' & Hup & Hitems & Hlast & Hbase & _).
  exists w'. split; [exact Hup|]. rewrite Hitems, Hlast, Hbase. repeat split.
Defined.

(** X7 at work: a display count of 2 and three entries on offer; after
    [initialize] and one [update] the widget holds two. *)
Lemma operated_keeps_configuration_witness :
  exists w wd,
    Weibo.update
      (fun _ => Ok (Weibo.payloadOf [Weibo.entry "a" "" "a" 1; Weibo.entry "b" "" "b" 2]
                                    [Weibo.entry "c" "" "c" 3]))
      Background (fst (Weibo.initialize (Weibo.configured 2 0 "" 0)))
      (worldAt 1000 (answering 200 "{}" 5))
    = Some (w, wd)
    /\ Weibo.ShowCount w = 2
    /\ Weibo.len (Weibo.HotSearches w) <= Weibo.ShowCount w.
Proof.
  eassert (Hup : Weibo.update
      (fun _ => Ok (Weibo.payloadOf [Weibo.entry "a" "" "a" 1; Weibo.entry "b" "" "b" 2]
                                    [Weibo.entry "c" "" "c" 3]))
      Background (fst (Weibo.initialize (Weibo.configured 2 0 "" 0)))
      (worldAt 1000 (answering 200 "{}" 5))
    = Some (_, _)) by (cbv; reflexivity).
  do 2 eexists. split; [exact Hup|].
  pose proof (operated_keeps_configuration
                (fun _ => Ok (Weibo.payloadOf
                                [Weibo.entry "a" "" "a" 1; Weibo.entry "b" "" "b" 2]
                                [Weibo.entry "c" "" "c" 3]))
                (fun t _ => String.concat "+" t)
                (Weibo.configured 2 0 "" 0) _
                (Weibo.operated_update _ (fun t _ => String.concat "+" t) _ Background
                   (worldAt 1000 (answering 200 "{}" 5)) _ _ _
                   (Weibo.operated_initialize _ _ _) Hup))
    as ((_ & Hcount & _) & Hitems).
  split; [exact Hcount|]. exact (proj1 (Hitems eq_refl)).
Defined.

(** X18 at work. *)
Lemma FormattedHotValue_just_below_a_million_witness :
  Weibo.FormattedHotValue (Weibo.entry "a" "" "a" 999999) = "1000.0K".
Proof.
  apply FormattedHotValue_just_below_a_million. cbn. lia.
Defined.

(** X9 at work: no key, no model, no endpoint. *)
Lemma update_without_ai_config_witness :
  exists w',
    RandomFact.update RandomFact.decodePenguins RandomFact.decodeNothing
      RandomFact.everyURLParses "" Background
      (RandomFact.ready "" "" "" (2 * Hour))
      (worldAt 1000 (RandomFact.network 200 500 5))
    = Some (w', sent RandomFact.rawFactRequest 1005
                  (worldAt 1000 (RandomFact.network 200 500 5)))
    /\ RandomFact.CachedData w'
       = Some {| RandomFact.FactID := "f1";
                 RandomFact.FactText := "Penguins actually have knees.";
                 RandomFact.Content := "Penguins actually have knees.";
                 RandomFact.Source := "uselessfacts.jsph.pl" |}
    /\ RandomFact.lastUpdate w' = 1005.
Proof.
  destruct (update_without_ai_config RandomFact.decodePenguins RandomFact.decodeNothing
              RandomFact.everyURLParses "" Background
              (RandomFact.ready "" "" "" (2 * Hour))
              (worldAt 1000 (RandomFact.network 200 500 5))
              (sent RandomFact.rawFactRequest 1005
                 (worldAt 1000 (RandomFact.network 200 500 5)))
              RandomFact.penguins eq_refl eq_refl eq_refl)
    as (w' & Hup & Hdata & Hlast & _).
  exists w'. split; [exact Hup|]. rewrite Hdata, Hlast. split; reflexivity.
Defined.

(** X10 at work: the rewrite endpoint answers with one choice. *)
Lemma update_with_rewritten_text_witness :
  let w := RandomFact.ready "sk-1" "Qwen/Qwen3-8B"
             "https://api.siliconflow.cn/v1/chat/completions" (2 * Hour) in
  let wd := worldAt 1000 (RandomFact.network 200 200 5) in
  exists w',
    RandomFact.update RandomFact.decodePenguins
      (RandomFact.decodeChoice "企鹅其实是有膝盖的。")
      RandomFact.everyURLParses "" Background w wd
    = Some (w', sent (RandomFact.aiRequest "" w "Penguins actually have knees.") 1010
                  (sent RandomFact.rawFactRequest 1005 wd))
    /\ RandomFact.CachedData w'
       = Some {| RandomFact.FactID := "f1";
                 RandomFact.FactText := "Penguins actually have knees.";
                 RandomFact.Content := "企鹅其实是有膝盖的。";
                 RandomFact.Source := "Qwen3-8B" |}.
Proof.
  intros w wd.
  destruct (update_with_rewritten_text RandomFact.decodePenguins
              (RandomFact.decodeChoice "企鹅其实是有膝盖的。")
              RandomFact.everyURLParses "" Background w wd
              (sent RandomFact.rawFactRequest 1005 wd)
              (sent (RandomFact.aiRequest "" w "Penguins actually have knees.") 1010
                 (sent RandomFact.rawFactRequest 1005 wd))
              RandomFact.penguins "企鹅其实是有膝盖的。"
              eq_refl eq_refl eq_refl eq_refl)
    as (w' & Hup & Hdata & _).
  exists w'. split; [exact Hup|]. rewrite Hdata. reflexivity.
Defined.

(** X11 at work: the same run has sent the trivia request, then the
    rewrite request. *)
Lemma update_sends_at_most_two_witness :
  let w := RandomFact.ready "sk-1" "Qwen/Qwen3-8B"
             "https://api.siliconflow.cn/v1/chat/completions" (2 * Hour) in
  exists w' wd',
    RandomFact.update RandomFact.decodePenguins
      (RandomFact.decodeChoice "企鹅其实是有膝盖的。")
      RandomFact.everyURLParses "" Background w
      (worldAt 1000 (RandomFact.network 200 200 5))
    = Some (w', wd')
    /\ requests wd'
       = [RandomFact.rawFactRequest;
          RandomFact.aiRequest "" w "Penguins actually have knees."]
    /\ Header RandomFact.rawFactRequest = [].
Proof.
  intros w.
  eassert (Hup : RandomFact.update RandomFact.decodePenguins
      (RandomFact.decodeChoice "企鹅其实是有膝盖的。")
      RandomFact.everyURLParses "" Background w
      (worldAt 1000 (RandomFact.network 200 200 5))
    = Some (_, _)) by (cbv; reflexivity).
  do 2 eexists. split; [exact Hup|].
  pose proof (update_sends_at_most_two RandomFact.decodePenguins
                (RandomFact.decodeChoice "企鹅其实是有膝盖的。")
                RandomFact.everyURLParses "" Background w _ _ _ Hup)
    as (_ & Hheader & _).
  split; [reflexivity | exact Hheader].
Defined.

(** X13 at work: a widget that holds a fact meets status 500 three hours
    later; it still holds the fact. *)
Lemma cached_fact_is_kept_witness :
  let w0 := RandomFact.setLastUpdate 1005
              (RandomFact.setCachedData
                 (Some (RandomFact.rawRecord RandomFact.penguins "uselessfacts.jsph.pl"))
                 (RandomFact.ready "" "" "" (2 * Hour))) in
  let wd0 := worldAt (1005 + 3 * Hour) (RandomFact.network 500 500 5) in
  exists w wd,
    RandomFact.update RandomFact.decodePenguins RandomFact.decodeNothing
      RandomFact.everyURLParses "" Background w0 wd0
    = Some (w, wd)
    /\ Error (RandomFact.base w) = Some "API returned status code 500"
    /\ RandomFact.CachedData w <> None.
Proof.
  intros w0 wd0.
  eassert (Hup : RandomFact.update RandomFact.decodePenguins RandomFact.decodeNothing
      RandomFact.everyURLParses "" Background w0 wd0
    = Some (_, _)) by (cbv; reflexivity).
  do 2 eexists. split; [exact Hup|]. split; [reflexivity|].
  refine (proj1 (cached_fact_is_kept RandomFact.decodePenguins RandomFact.decodeNothing
                   RandomFact.everyURLParses "" RandomFact.templateName
                   w0 _ wd0 _
                   (RandomFact.serves_update _ _ _ _ RandomFact.templateName _ _
                      Background _ _ _ _
                      (RandomFact.serves_start _ _ _ _ _ _ _) Hup)
                   _)).
  discriminate.
Defined.


End CoverageRuns.
